(** * ptf: page navigation and live reload of the PDF test application

    A shallow embedding of [src/ptf/__init__.py] (class [PDFTestApp]):
    the key and input handlers, [fix_buttons], and the file watcher
    [start_watching_please], followed by the properties of the page cursor,
    the render cache and the reload logic.

    Python integers are [Z]; the text typed into the page-number input is
    a [pytext], a list of characters classified the way [str.isnumeric] and
    [int] tell them apart; the render cache (a Python dict keyed by page
    index) is a [gmap Z Artifact]; Python exceptions are values of [exn],
    carried by a state-and-error monad [M] that also records the order of
    the mutations a handler performs. *)

From Stdlib Require Import ZArith List Bool Ascii String Lia.
From Stdlib Require Import DecimalString DecimalZ DecimalPos DecimalN DecimalFacts.
From stdpp Require Import base gmap strings.

Import ListNotations.
Open Scope string_scope.
Open Scope Z_scope.

(** ** Documents, artifacts and the viewer widget *)

(** What [fitz.open] returns: a document snapshot.  [doc_id] identifies the
    snapshot (two opens of a rewritten file give different snapshots),
    [page_count] is [doc.page_count]. *)
Record Document : Type := mkDocument {
  doc_id : N;
  page_count : Z
}.

(** A rendered page: which snapshot it was rendered from, and which page. *)
Record Artifact : Type := mkArtifact {
  art_doc : N;
  art_page : Z
}.

(** The attributes of the [PDFViewer] widget the application reads and
    writes: [doc], [current_page] and [_cache]. *)
Record PDFViewer : Type := mkPDFViewer {
  doc : Document;
  current_page : Z;
  _cache : gmap Z Artifact
}.

(** Modelled from the spec: [PDFViewer.total_pages] belongs to the
    [textual_pdf] widget, which is not part of the sources; the spec's
    [totalPages()] is the page count of the current document. *)
Definition total_pages (v : PDFViewer) : Z := page_count (doc v).

(** ** The application state *)

(** [pdf_viewer] is the widget; the next four fields are what
    [fix_buttons] writes ([#prev].disabled, [#next].disabled,
    [#current].value, the [#total] label); [focused] is the id of the
    focused widget, [None] when [self.focused] is [None]. *)
Record App : Type := mkApp {
  pdf_viewer : PDFViewer;
  prev_disabled : bool;
  next_disabled : bool;
  current_value : string;
  total_label : string;
  focused : option string
}.

Definition with_viewer (v : PDFViewer) (a : App) : App :=
  mkApp v (prev_disabled a) (next_disabled a) (current_value a)
        (total_label a) (focused a).

Definition with_focused (f : option string) (a : App) : App :=
  mkApp (pdf_viewer a) (prev_disabled a) (next_disabled a) (current_value a)
        (total_label a) f.

(** ** Exceptions, mutation trace and the handler monad *)

Inductive exn : Set :=
| NotAPDFError
| FileNotFoundError
| PermissionError
| FileDataError
| EmptyFileError
| ValueError
| AttributeError
| PDFRuntimeError.

Definition exn_eqb (a b : exn) : bool :=
  match a, b with
  | NotAPDFError, NotAPDFError
  | FileNotFoundError, FileNotFoundError
  | PermissionError, PermissionError
  | FileDataError, FileDataError
  | EmptyFileError, EmptyFileError
  | ValueError, ValueError
  | AttributeError, AttributeError
  | PDFRuntimeError, PDFRuntimeError => true
  | _, _ => false
  end.

Inductive res (A : Type) : Type :=
| Ok (a : A)
| Raise (e : exn).
Arguments Ok {A} a.
Arguments Raise {A} e.

(** The mutations and calls whose order matters, in program order. *)
Inductive event : Set :=
| EvStat
| EvOpen
| EvSetDoc
| EvSetCache
| EvSetCurrentPage (z : Z)
| EvFixButtons.

Record World : Type := mkWorld {
  app : App;
  trace : list event
}.

Definition M (A : Type) : Type := World -> res A * World.

Definition ret {A} (a : A) : M A := fun w => (Ok a, w).

Definition bind {A B} (m : M A) (k : A -> M B) : M B :=
  fun w => match m w with
           | (Ok a, w') => k a w'
           | (Raise e, w') => (Raise e, w')
           end.

Definition raise {A} (e : exn) : M A := fun w => (Raise e, w).

Notation "'do' x <- m ; k" := (bind m (fun x => k))
  (at level 10, x name, m at level 100, k at level 200).
Notation "'run' m ; k" := (bind m (fun _ => k))
  (at level 10, m at level 100, k at level 200).

(** [with contextlib.suppress(e): body]: an exception [e] raised by the
    body ends the block normally; any other exception propagates.  The
    mutations done before the exception stay. *)
Definition suppress (e : exn) (body : M unit) : M unit :=
  fun w => match body w with
           | (Raise e', w') => if exn_eqb e e' then (Ok tt, w') else (Raise e', w')
           | r => r
           end.

Definition emit (ev : event) : M unit :=
  fun w => (Ok tt, mkWorld (app w) (trace w ++ [ev])).

Definition get_app : M App := fun w => (Ok (app w), w).

Definition put_app (a : App) : M unit :=
  fun w => (Ok tt, mkWorld a (trace w)).

(** Attribute reads and writes on [self.pdf_viewer]. *)
Definition get_current_page : M Z :=
  do a <- get_app; ret (current_page (pdf_viewer a)).

Definition get_total_pages : M Z :=
  do a <- get_app; ret (total_pages (pdf_viewer a)).

(** Modelled from the spec: the re-render belongs to the [textual_pdf]
    widget, which is not part of the sources.  The spec's
    [currentArtifact()] looks the current page up in the render cache and,
    on a miss, renders it from the document and stores it.  A document
    without pages cannot be rendered: the widget raises
    [PDFRuntimeError].  The page lookup is PyMuPDF's: an index below the
    page count is accepted, a negative one counting from the end ([-1] is
    the last page), and an index from the page count on is refused with
    [ValueError]. *)
Definition render_page : M unit :=
  do a <- get_app;
  let v := pdf_viewer a in
  if page_count (doc v) <=? 0 then raise PDFRuntimeError
  else match _cache v !! current_page v with
       | Some _ => ret tt
       | None =>
           if page_count (doc v) <=? current_page v then raise ValueError
           else put_app (with_viewer
                           (mkPDFViewer (doc v) (current_page v)
                              (<[current_page v :=
                                   mkArtifact (doc_id (doc v))
                                     (Z.modulo (current_page v) (page_count (doc v)))]>
                                 (_cache v))) a)
       end.

(** Modelled from the spec: [current_page] is an attribute of the
    [textual_pdf] widget, which is not part of the sources; the spec
    (section 9) describes the host's reactivity: a write that changes the
    value makes the widget refresh, which is what lines 68 and 69 rely on.
    The value is stored first, and when it differs from the old one the
    widget re-renders at once, inside the assignment, so an exception of
    the render leaves the assignment with the new value already stored. *)
Definition set_current_page (z : Z) : M unit :=
  do a <- get_app;
  run put_app (with_viewer (mkPDFViewer (doc (pdf_viewer a)) z (_cache (pdf_viewer a))) a);
  run emit (EvSetCurrentPage z);
  if z =? current_page (pdf_viewer a) then ret tt else render_page.

Definition set_doc (d : Document) : M unit :=
  do a <- get_app;
  run put_app (with_viewer (mkPDFViewer d (current_page (pdf_viewer a)) (_cache (pdf_viewer a))) a);
  emit EvSetDoc.

Definition set_cache (c : gmap Z Artifact) : M unit :=
  do a <- get_app;
  run put_app (with_viewer (mkPDFViewer (doc (pdf_viewer a)) (current_page (pdf_viewer a)) c) a);
  emit EvSetCache.

(** ** Python's [str(int)], [str.isnumeric] and [int(str)] *)

(** [str(z)]: decimal digits, with a leading minus sign for negatives. *)
Definition py_str (z : Z) : string := NilZero.string_of_int (Z.to_int z).

Inductive digit : Set :=
| Zero | One | Two | Three | Four | Five | Six | Seven | Eight | Nine.

Definition ascii_of_digit (d : digit) : ascii :=
  match d with
  | Zero => "0" | One => "1" | Two => "2" | Three => "3" | Four => "4"
  | Five => "5" | Six => "6" | Seven => "7" | Eight => "8" | Nine => "9"
  end%char.

(** A character of a Python [str], as far as [str.isnumeric] and [int]
    tell characters apart: [Basic a] is the ASCII character of code [a]
    (codes above 127 stand for no character and count as non-numeric);
    [DecimalDigit d] is a non-ASCII decimal digit of value [d], such as
    ARABIC-INDIC DIGIT THREE; [OtherNumeric] is a numeric character that
    is no decimal digit, such as SUPERSCRIPT TWO or VULGAR FRACTION ONE
    HALF; [NonNumeric] is any other non-ASCII character. *)
Inductive pychar : Set :=
| Basic (a : ascii)
| DecimalDigit (d : digit)
| OtherNumeric
| NonNumeric.

Definition pytext : Type := list pychar.

(** ASCII text as a [pytext]; string literals are read this way. *)
Definition typed (s : string) : pytext := map Basic (list_ascii_of_string s).
Coercion typed : string >-> pytext.

Definition is_digit (c : ascii) : bool :=
  let n := nat_of_ascii c in (48 <=? n)%nat && (n <=? 57)%nat.

Definition char_isnumeric (c : pychar) : bool :=
  match c with
  | Basic a => is_digit a
  | DecimalDigit _ => true
  | OtherNumeric => true
  | NonNumeric => false
  end.

(** [s.isnumeric()]: at least one character, all of them numeric. *)
Definition isnumeric (s : pytext) : bool :=
  match s with
  | [] => false
  | _ => forallb char_isnumeric s
  end.

(** The ASCII digit [int] reads a character as, if it is a decimal digit. *)
Definition decimal_ascii (c : pychar) : option ascii :=
  match c with
  | Basic a => if is_digit a then Some a else None
  | DecimalDigit d => Some (ascii_of_digit d)
  | OtherNumeric => None
  | NonNumeric => None
  end.

Fixpoint decimal_string (s : pytext) : option string :=
  match s with
  | [] => Some EmptyString
  | c :: s' =>
      match decimal_ascii c, decimal_string s' with
      | Some a, Some r => Some (String a r)
      | _, _ => None
      end
  end.

(** Python's default limit on the number of digits [int] converts
    ([sys.int_info.default_max_str_digits]). *)
Definition max_str_digits : Z := 4300.

(** [int(s)] on text without sign, blanks or underscores (none of which
    is numeric, so none reaches [int] in the handler): the decimal value
    when every character is a decimal digit and there are between 1 and
    [max_str_digits] of them; [None] stands for the [ValueError] Python
    raises otherwise. *)
Definition py_int (s : pytext) : option Z :=
  if max_str_digits <? Z.of_nat (length s) then None
  else match decimal_string s with
       | Some a => option_map Z.of_uint (NilZero.uint_of_string a)
       | None => None
       end.

Definition int_of_value (s : pytext) : M Z :=
  match py_int s with
  | Some z => ret z
  | None => raise ValueError
  end.

(** ** Navigation operations of the viewer widget *)

(** Modelled from the spec: [PDFViewer.next_page] belongs to the
    [textual_pdf] widget, which is not part of the sources; the spec gives
    [next()]: [current = min(current + 1, total - 1)]. *)
Definition next_page : M unit :=
  do c <- get_current_page;
  do t <- get_total_pages;
  set_current_page (Z.min (c + 1) (t - 1)).

(** Modelled from the spec: [PDFViewer.previous_page] is not part of the
    sources; the spec gives [previous()]: [current = max(current - 1, 0)]. *)
Definition previous_page : M unit :=
  do c <- get_current_page;
  set_current_page (Z.max (c - 1) 0).

(** Modelled from the spec: [PDFViewer.go_to_start] is not part of the
    sources; the spec gives [gotoStart()]: [current = 0]. *)
Definition go_to_start : M unit := set_current_page 0.

(** Modelled from the spec: [PDFViewer.go_to_end] is not part of the
    sources; the spec gives [gotoEnd()]: [current = total - 1], a no-op
    when [total == 0]. *)
Definition go_to_end : M unit :=
  do t <- get_total_pages;
  if t =? 0 then ret tt else set_current_page (t - 1).

(** ** [PDFTestApp.fix_buttons] *)

(** What Textual does to the focus [f] when the [disabled] flag of button
    [button_id] goes from [was] to [now]: a focused widget that becomes
    disabled loses the focus, which goes to its first focusable sibling,
    here the [empty_focusable] label. *)
Definition focus_after_disabling
    (button_id : string) (was now : bool) (f : option string) : option string :=
  match f with
  | Some fid =>
      if negb was && now && String.eqb fid button_id
      then Some "empty_focusable" else Some fid
  | None => None
  end.

(** The comparison [total.visual != self.pdf_viewer.total_pages] is between
    a rendered label and an integer, which are never equal in Python, so
    the label is rewritten on every call.  The buttons are written in the
    order of lines 85 and 86. *)
Definition fix_buttons : M unit :=
  do a <- get_app;
  let v := pdf_viewer a in
  let prev_now := current_page v =? 0 in
  let next_now := total_pages v - 1 =? current_page v in
  run put_app (mkApp v prev_now next_now
                 (py_str (current_page v + 1))
                 (py_str (total_pages v))
                 (focus_after_disabling "next" (next_disabled a) next_now
                    (focus_after_disabling "prev" (prev_disabled a) prev_now
                       (focused a))));
  emit EvFixButtons.

(** ** [PDFTestApp.on_button_pressed] *)

Definition on_button_pressed (button_id : string) : M unit :=
  run (if String.eqb button_id "prev" then previous_page
       else if String.eqb button_id "next" then next_page
       else ret tt);
  fix_buttons.

(** ** [PDFTestApp.focus_nothing] *)

Definition focus_nothing : M unit :=
  do a <- get_app; put_app (with_focused (Some "empty_focusable") a).

(** ** [PDFTestApp.on_input_changed] *)

(** The two style assignments only resize the input box and are left out.
    The guard is Python's short-circuit [and]: [int(event.value)] is only
    evaluated when [event.value.isnumeric()] holds. *)
Definition on_input_changed (value : pytext) : M unit :=
  if isnumeric value then
    do c <- get_current_page;
    do v1 <- int_of_value value;
    if negb (c =? v1) then
      do v2 <- int_of_value value;
      do t <- get_total_pages;
      if v2 <? t then
        do v3 <- int_of_value value;
        set_current_page (v3 - 1)
      else ret tt
    else ret tt
  else ret tt.

(** ** [PDFTestApp.on_key] *)

Definition key_in (key : string) (keys : list string) : bool :=
  existsb (String.eqb key) keys.

Definition next_keys : list string := ["down"; "page_down"; "right"; "j"; "l"].
Definition prev_keys : list string := ["up"; "page_up"; "left"; "k"; "h"].
Definition start_keys : list string := ["home"; "g"].
Definition end_keys : list string := ["end"; "G"].

(** [self.focused.id] raises [AttributeError] when nothing is focused.
    [event.stop()] only stops the event from bubbling.  Key ["i"] focuses
    the only [Input], whose id is ["current"]. *)
Definition on_key (key : string) : M unit :=
  do a <- get_app;
  match focused a with
  | None => raise AttributeError
  | Some fid =>
      if String.eqb fid "current" && negb (key_in key ["up"; "down"]) then
        if String.eqb key "escape" then focus_nothing else ret tt
      else if key_in key next_keys then (run next_page; fix_buttons)
      else if key_in key prev_keys then (run previous_page; fix_buttons)
      else if key_in key start_keys then (run go_to_start; fix_buttons)
      else if key_in key end_keys then (run go_to_end; fix_buttons)
      else if String.eqb key "i" then put_app (with_focused (Some "current") a)
      else ret tt
  end.

Fixpoint on_keys (keys : list string) : M unit :=
  match keys with
  | [] => ret tt
  | k :: ks => run on_key k; on_keys ks
  end.

(** ** [PDFTestApp.start_watching_please] *)

(** What the file system answers during one iteration of the watcher:
    the result of [self.pdf_path.stat().st_mtime] and the result
    [fitz.open(self.pdf_path)] has if it is called.  [fitz.open] is
    PyMuPDF's and raises PyMuPDF's exceptions ([fitz_error] below), never
    [NotAPDFError], which is an exception of [textual_pdf]. *)
Record Observation : Type := mkObservation {
  obs_stat : res Z;
  obs_open : res Document
}.

Definition fitz_error (e : exn) : Prop :=
  e = FileNotFoundError \/ e = FileDataError \/ e = EmptyFileError.

Definition lift_res {A} (r : res A) : M A :=
  match r with
  | Ok a => ret a
  | Raise e => raise e
  end.

Definition stat_mtime (o : Observation) : M Z :=
  run emit EvStat; lift_res (obs_stat o).

Definition fitz_open (o : Observation) : M Document :=
  run emit EvOpen; lift_res (obs_open o).

(** The body of the [with contextlib.suppress(NotAPDFError):] block,
    lines 62 to 70. *)
Definition reload (o : Observation) : M unit :=
  do current_page0 <- get_current_page;
  do d <- fitz_open o;
  run set_doc d;
  run set_cache ∅;
  do t <- get_total_pages;
  run (if t <=? current_page0 then
         do t' <- get_total_pages;
         set_current_page (t' - 1)
       else
         do c1 <- get_current_page;
         run set_current_page (c1 - 1);
         do c2 <- get_current_page;
         set_current_page (c2 + 1));
  fix_buttons.

(** One iteration of the [while True] loop after [await sleep(1)]; the
    result is the value of [prev_stmtime] for the next iteration.  An
    exception that leaves the iteration ends the worker. *)
Definition watch_iteration (o : Observation) (prev_stmtime : Z) : M Z :=
  do new_stmtime <- stat_mtime o;
  run (if negb (new_stmtime =? prev_stmtime) then
         suppress NotAPDFError (reload o)
       else ret tt);
  ret new_stmtime.

(** Consecutive iterations of the loop, one per observation. *)
Fixpoint watch_loop (os : list Observation) (prev_stmtime : Z) : M Z :=
  match os with
  | [] => ret prev_stmtime
  | o :: os' =>
      do m <- watch_iteration o prev_stmtime;
      watch_loop os' m
  end.

(** The worker: line 56 reads the modification time once (observation
    [o0]), then the loop runs, here for as many iterations as there are
    observations in [os]. *)
Definition start_watching_please (o0 : Observation) (os : list Observation) : M Z :=
  do prev_stmtime <- stat_mtime o0;
  watch_loop os prev_stmtime.

(** ** Vocabulary of the statements *)

Definition cursor (w : World) : Z := current_page (pdf_viewer (app w)).
Definition total (w : World) : Z := total_pages (pdf_viewer (app w)).
Definition cache (w : World) : gmap Z Artifact := _cache (pdf_viewer (app w)).
Definition document (w : World) : Document := doc (pdf_viewer (app w)).

(** The events a handler added to the trace, given the worlds before and
    after it. *)
Definition events_since (before after : World) : list event :=
  skipn (length (trace before)) (trace after).

(** A call of [next()] or of [previous()]. *)
Inductive nav : Set := Next | Previous.

Definition nav_call (n : nav) : M unit :=
  match n with
  | Next => next_page
  | Previous => previous_page
  end.

Fixpoint nav_calls (l : list nav) : M unit :=
  match l with
  | [] => ret tt
  | n :: l' => run nav_call n; nav_calls l'
  end.

(** The same call made [n] times in a row. *)
Fixpoint repeat_call (n : nat) (m : M unit) : M unit :=
  match n with
  | O => ret tt
  | S k => run m; repeat_call k m
  end.

(** The data-model invariant of the page index: [0 <= current < total]. *)
Definition cursor_in_range (w : World) : Prop :=
  0 <= cursor w <= total w - 1.

(** A handler that returns normally, keeps the document and the focus, and
    leaves the cursor in range. *)
Definition keeps_range (m : M unit) (w : World) : Prop :=
  exists w', m w = (Ok tt, w') /\ total w' = total w /\
             is_Some (focused (app w')) /\ cursor_in_range w'.

Definition is_cursor_write (e : event) : Prop :=
  exists z, e = EvSetCurrentPage z.

(** The cursor the reload leaves, from the cursor [c] read before the
    reopen and the page count [t] of the reopened document (lines 65-69). *)
Definition reloaded_cursor (c t : Z) : Z :=
  if t <=? c then t - 1 else c - 1 + 1.

Definition reload_writes (c t : Z) : list event :=
  if t <=? c then [EvSetCurrentPage (t - 1)]
  else [EvSetCurrentPage (c - 1); EvSetCurrentPage (c - 1 + 1)].

(** Sample states: a viewer on document [id] with [n] pages at page [c]
    and an empty cache, in a freshly mounted application. *)
Definition sample_viewer (id : N) (n c : Z) : PDFViewer :=
  mkPDFViewer (mkDocument id n) c ∅.

Definition sample_world (id : N) (n c : Z) : World :=
  mkWorld (mkApp (sample_viewer id n c) (c =? 0) (n - 1 =? c)
                 (py_str (c + 1)) (py_str n) (Some "empty_focusable")) [].

(** The same with pages 0 and [c] already rendered and cached. *)
Definition cached_world (id : N) (n c : Z) : World :=
  mkWorld (mkApp (mkPDFViewer (mkDocument id n) c
                    (<[0 := mkArtifact id 0]> (<[c := mkArtifact id c]> ∅)))
                 (c =? 0) (n - 1 =? c)
                 (py_str (c + 1)) (py_str n) (Some "empty_focusable")) [].

(** ** [PDFTestApp.on_input_submitted] *)

Definition on_input_submitted : M unit := focus_nothing.

(** ** [PDFTestApp.on_mount] *)

(** [self.query_one("#total").update(s)]. *)
Definition set_total_label (s : string) : M unit :=
  do a <- get_app;
  put_app (mkApp (pdf_viewer a) (prev_disabled a) (next_disabled a)
                 (current_value a) s (focused a)).

(** Lines 46 to 51.  The two [can_focus] assignments decide which widgets
    may take the focus and write nothing modelled here; the last line of
    the method starts the worker, which is [start_watching_please]. *)
Definition on_mount : M unit :=
  run focus_nothing;
  do t <- get_total_pages;
  run set_total_label (py_str t);
  fix_buttons.

(** ** The messages of the running application *)

(** The handlers and the worker share one event loop: a handler runs to
    its end, and the worker gives way only at [await sleep(1)], so the
    application is a sequence of handler runs and watcher iterations.
    The watcher's local [prev_stmtime] is threaded through; an exception
    that leaves a handler or the worker ends the run.  The [Input.Changed]
    message Textual posts when [fix_buttons] rewrites the input is an
    [InputChanged] like any other, handled whenever the loop reaches it. *)
Inductive message : Type :=
| KeyEvent (key : string)
| ButtonPressed (button_id : string)
| InputChanged (value : pytext)
| InputSubmitted
| WatcherWakes (o : Observation).

Definition handle (msg : message) (prev_stmtime : Z) : M Z :=
  match msg with
  | KeyEvent key => run on_key key; ret prev_stmtime
  | ButtonPressed button_id => run on_button_pressed button_id; ret prev_stmtime
  | InputChanged value => run on_input_changed value; ret prev_stmtime
  | InputSubmitted => run on_input_submitted; ret prev_stmtime
  | WatcherWakes o => watch_iteration o prev_stmtime
  end.

Fixpoint handle_all (msgs : list message) (prev_stmtime : Z) : M Z :=
  match msgs with
  | [] => ret prev_stmtime
  | msg :: msgs' =>
      do m <- handle msg prev_stmtime;
      handle_all msgs' m
  end.

(** ** Further vocabulary *)

(** The four widgets [fix_buttons] writes agree with the viewer. *)
Definition widgets_in_sync (a : App) : Prop :=
  prev_disabled a = (current_page (pdf_viewer a) =? 0) /\
  next_disabled a = (total_pages (pdf_viewer a) - 1 =? current_page (pdf_viewer a)) /\
  current_value a = py_str (current_page (pdf_viewer a) + 1) /\
  total_label a = py_str (total_pages (pdf_viewer a)).

(** The document has a page and the cursor is in range or one below. *)
Definition cursor_from_minus_one (w : World) : Prop :=
  1 <= total w /\ -1 <= cursor w <= total w - 1.

(** A watcher message whose reopen, if it succeeds, gives a document with
    at least one page. *)
Definition opens_with_pages (msg : message) : Prop :=
  match msg with
  | WatcherWakes o =>
      match obs_open o with
      | Ok d => 1 <= page_count d
      | Raise _ => True
      end
  | _ => True
  end.

(** An observation the watcher gets through: [stat] succeeds and the
    reopen gives a document with at least one page. *)
Definition survivable (o : Observation) : Prop :=
  (exists m, obs_stat o = Ok m) /\
  (exists d, obs_open o = Ok d /\ 1 <= page_count d).

(** Every entry of the cache [c] was rendered from the document [d], and
    sits under an index below the page count of [d]. *)
Definition cache_from (d : Document) (c : gmap Z Artifact) : Prop :=
  forall i a, c !! i = Some a -> art_doc a = doc_id d /\ i < page_count d.

(** What a handler that writes the cursor at most once, to [z], does to
    the viewer and the focus: the document stays, the cursor is [z], the
    cache is as before or has the newly rendered page [z] added, and a
    focused widget stays focused or hands the focus on. *)
Definition viewer_step (w w' : World) (z : Z) : Prop :=
  document w' = document w /\ cursor w' = z /\
  (cache w' = cache w \/
   (z < total w /\
    cache w' = <[z := mkArtifact (doc_id (document w)) (Z.modulo z (total w))]> (cache w))) /\
  (is_Some (focused (app w)) -> is_Some (focused (app w'))).

(** The application with its render cache left out of the comparison. *)
Definition forget_cache (a : App) : App :=
  with_viewer (mkPDFViewer (doc (pdf_viewer a)) (current_page (pdf_viewer a)) ∅) a.

(** The modification time an observation reports (0 when [stat] raises). *)
Definition obs_mtime (o : Observation) : Z :=
  match obs_stat o with
  | Ok m => m
  | Raise _ => 0
  end.

(** How many times a sequence of modification times differs from the
    one before it, starting from [prev]. *)
Fixpoint mtime_changes (prev : Z) (ms : list Z) : nat :=
  match ms with
  | [] => O
  | m :: ms' => ((if Z.eqb m prev then 0 else 1) + mtime_changes m ms')%nat
  end.

Definition is_open (e : event) : bool :=
  match e with
  | EvOpen => true
  | _ => false
  end.

Definition count_opens (evs : list event) : nat :=
  length (filter is_open evs).

(** * Properties *)

(** ** Text of the page-number input *)

(** What [int] returns is a natural number. *)
Lemma py_int_nonneg (s : pytext) (v : Z) : py_int s = Some v -> 0 <= v.
Proof.
  unfold py_int. destruct (max_str_digits <? Z.of_nat (length s)); [discriminate|].
  destruct (decimal_string s) as [a|]; [|discriminate].
  destruct (NilZero.uint_of_string a) as [d|]; [|discriminate].
  cbn [option_map]. intros [= <-]. unfold Z.of_uint. apply N2Z.is_nonneg.
Qed.

Lemma decimal_string_typed_digits (d : Decimal.uint) :
  decimal_string (typed (NilEmpty.string_of_uint d)) = Some (NilEmpty.string_of_uint d).
Proof.
  unfold typed. induction d; cbn [NilEmpty.string_of_uint list_ascii_of_string map decimal_string];
    [reflexivity | rewrite IHd; reflexivity ..].
Qed.

Lemma length_typed (s : string) : length (typed s) = String.length s.
Proof.
  unfold typed. rewrite length_map. induction s as [|a s IH]; cbn; [reflexivity | now rewrite IH].
Qed.

(** [int(str(z)) == z] for a natural number [z] whose decimal form stays
    within the digit limit. *)
Lemma py_int_py_str (z : Z) :
  0 <= z -> Z.of_nat (String.length (py_str z)) <= max_str_digits ->
  py_int (py_str z) = Some z.
Proof.
  intros Hz Hlen. unfold py_int. rewrite length_typed.
  destruct (Z.ltb_spec max_str_digits (Z.of_nat (String.length (py_str z)))); [lia|].
  unfold py_str in *. destruct z as [|p|p]; [reflexivity| |lia].
  cbn [Z.to_int NilZero.string_of_int] in *.
  pose proof (DecimalPos.Unsigned.to_uint_nonnil p) as Hn.
  assert (Hs : NilZero.string_of_uint (Pos.to_uint p)
               = NilEmpty.string_of_uint (Pos.to_uint p))
    by (destruct (Pos.to_uint p); [congruence | reflexivity ..]).
  rewrite Hs, decimal_string_typed_digits, <- Hs, NilZero.usu by exact Hn.
  cbn [option_map]. f_equal. unfold Z.of_uint.
  rewrite DecimalPos.Unsigned.of_to. reflexivity.
Qed.

(** ** Tactics and the reactive cursor write *)

(** Unfold the monadic plumbing of a handler applied to a world, down to
    the writes of the cursor. *)
Ltac mrun :=
  cbv [next_page previous_page go_to_start go_to_end fix_buttons focus_nothing
       set_doc set_cache get_current_page get_total_pages
       stat_mtime fitz_open lift_res int_of_value
       bind ret raise suppress get_app put_app emit].

(** Reduce the record projections a statement applies to an explicit world. *)
Ltac psimpl :=
  unfold cursor, total, cache, document, total_pages, with_viewer, with_focused in *;
  cbn [app trace pdf_viewer prev_disabled next_disabled current_value
       total_label focused doc current_page _cache page_count doc_id
       total_pages cursor total cache document with_viewer with_focused
       fst snd] in *.

Ltac mdone := eexists; split; [mrun; reflexivity |].

(** A write of the cursor: what it leaves, and when it returns normally. *)
Lemma set_current_page_spec (z : Z) (w : World) :
  exists r c,
    set_current_page z w =
      (r, mkWorld (with_viewer (mkPDFViewer (document w) z c) (app w))
                  (trace w ++ [EvSetCurrentPage z])) /\
    (c = cache w \/
     (z < total w /\
      c = <[z := mkArtifact (doc_id (document w)) (Z.modulo z (total w))]> (cache w))) /\
    (1 <= total w -> z < total w -> r = Ok tt) /\
    (total w <= 0 -> z <> cursor w -> r = Raise PDFRuntimeError /\ c = cache w) /\
    (z = cursor w -> r = Ok tt /\ c = cache w).
Proof.
  unfold set_current_page, render_page.
  cbv [bind ret raise get_app put_app emit]. psimpl.
  destruct (Z.eqb_spec z (current_page (pdf_viewer (app w)))) as [Heq | Hne];
    cbv beta; psimpl.
  { do 2 eexists. split; [reflexivity|]. repeat split; auto; lia. }
  destruct (Z.leb_spec (page_count (doc (pdf_viewer (app w)))) 0) as [Hempty | Hpages];
    cbv beta; psimpl.
  { do 2 eexists. split; [reflexivity|]. repeat split; auto; lia. }
  destruct (_cache (pdf_viewer (app w)) !! z) as [a|] eqn:Hhit; cbv beta; psimpl.
  { do 2 eexists. split; [reflexivity|]. repeat split; auto; lia. }
  destruct (Z.leb_spec (page_count (doc (pdf_viewer (app w)))) z) as [Hpast | Hin];
    cbv beta; psimpl.
  { do 2 eexists. split; [reflexivity|]. repeat split; auto; lia. }
  do 2 eexists. split; [reflexivity|]. repeat split; auto; lia.
Qed.

(** Replace the first cursor write of the goal by its outcome. *)
Ltac write_cursor r c Hcache Hok Hempty Hsame :=
  match goal with
  | |- context [set_current_page ?z ?w] =>
      let E := fresh "E" in
      destruct (set_current_page_spec z w) as (r & c & E & Hcache & Hok & Hempty & Hsame);
      rewrite E; clear E
  end.

Lemma cache_from_write (d : Document) (z p : Z) (c c' : gmap Z Artifact) :
  cache_from d c ->
  c' = c \/ (z < page_count d /\ c' = <[z := mkArtifact (doc_id d) p]> c) ->
  cache_from d c'.
Proof.
  intros Hc [-> | [Hz ->]]; [exact Hc|].
  intros i a. rewrite lookup_insert. case_decide.
  - intros [= <-]. subst i. split; [reflexivity | exact Hz].
  - apply Hc.
Qed.

Lemma set_current_page_ok (z : Z) (w : World) :
  (1 <= total w /\ z < total w) \/ z = cursor w ->
  exists w', set_current_page z w = (Ok tt, w') /\ total w' = total w /\
             focused (app w') = focused (app w) /\ cursor w' = z /\
             prev_disabled (app w') = prev_disabled (app w) /\
             next_disabled (app w') = next_disabled (app w) /\
             trace w' = (trace w ++ [EvSetCurrentPage z])%list.
Proof.
  intros H.
  destruct (set_current_page_spec z w) as (r & c & E & _ & Hok & _ & Hsame).
  assert (Hr : r = Ok tt) by (destruct H as [[H1 H2] | H]; [auto | apply Hsame, H]).
  subst r. eexists. split; [exact E|]. repeat split.
Qed.

(** ** Navigation *)

Lemma next_page_spec (w : World) :
  1 <= total w \/ cursor w = total w - 1 ->
  exists w', next_page w = (Ok tt, w') /\ total w' = total w /\
             focused (app w') = focused (app w) /\
             cursor w' = Z.min (cursor w + 1) (total w - 1).
Proof.
  intros H.
  destruct (set_current_page_ok (Z.min (cursor w + 1) (total w - 1)) w)
    as (w' & E & Ht & Hf & Hc & _); [lia|].
  exists w'. split; [exact E | auto].
Qed.

Lemma previous_page_spec (w : World) :
  (1 <= total w /\ cursor w <= total w) \/ cursor w = 0 ->
  exists w', previous_page w = (Ok tt, w') /\ total w' = total w /\
             focused (app w') = focused (app w) /\
             cursor w' = Z.max (cursor w - 1) 0.
Proof.
  intros H.
  destruct (set_current_page_ok (Z.max (cursor w - 1) 0) w)
    as (w' & E & Ht & Hf & Hc & _); [lia|].
  exists w'. split; [exact E | auto].
Qed.

Lemma nav_call_in_range (n : nav) (w : World) :
  1 <= total w -> cursor_in_range w ->
  exists w', nav_call n w = (Ok tt, w') /\ total w' = total w /\
             focused (app w') = focused (app w) /\ cursor_in_range w'.
Proof.
  unfold cursor_in_range. intros HT Hc. destruct n; cbn [nav_call].
  - destruct (next_page_spec w) as (w' & E & Ht & Hf & Hn); [lia|].
    exists w'. rewrite Ht, Hn. repeat split; auto; lia.
  - destruct (previous_page_spec w) as (w' & E & Ht & Hf & Hn); [lia|].
    exists w'. rewrite Ht, Hn. repeat split; auto; lia.
Qed.

Lemma nav_calls_in_range (l : list nav) :
  forall w, 1 <= total w -> cursor_in_range w ->
  exists w', nav_calls l w = (Ok tt, w') /\ total w' = total w /\
             cursor_in_range w'.
Proof.
  induction l as [|n l IH]; intros w HT Hc.
  - exists w. split; [reflexivity | auto].
  - destruct (nav_call_in_range n w HT Hc) as (w1 & E1 & Ht1 & _ & Hc1).
    destruct (IH w1) as (w2 & E2 & Ht2 & Hc2); [lia | exact Hc1 |].
    exists w2. cbn [nav_calls]. unfold bind at 1. rewrite E1.
    split; [exact E2 | split; [congruence | exact Hc2]].
Qed.

Lemma next_at_last_page (n : nat) :
  forall w, cursor w = total w - 1 ->
  exists w', repeat_call n next_page w = (Ok tt, w') /\ total w' = total w /\
             cursor w' = total w - 1.
Proof.
  induction n as [|n IH]; intros w Hc.
  - exists w. repeat split; auto.
  - destruct (next_page_spec w) as (w1 & E1 & Ht1 & _ & Hn1); [lia|].
    destruct (IH w1) as (w2 & E2 & Ht2 & Hc2); [lia|].
    exists w2. cbn [repeat_call]. unfold bind at 1. rewrite E1.
    repeat split; auto; lia.
Qed.

Lemma previous_at_first_page (n : nat) :
  forall w, cursor w = 0 ->
  exists w', repeat_call n previous_page w = (Ok tt, w') /\ total w' = total w /\
             cursor w' = 0.
Proof.
  induction n as [|n IH]; intros w Hc.
  - exists w. repeat split; auto.
  - destruct (previous_page_spec w) as (w1 & E1 & Ht1 & _ & Hn1); [lia|].
    destruct (IH w1) as (w2 & E2 & Ht2 & Hc2); [lia|].
    exists w2. cbn [repeat_call]. unfold bind at 1. rewrite E1.
    repeat split; auto; lia.
Qed.

Lemma focus_after_disabling_some (button_id : string) (was now : bool) (f : option string) :
  is_Some f -> is_Some (focus_after_disabling button_id was now f).
Proof.
  intros [fid ->]. unfold focus_after_disabling.
  destruct (negb was && now && String.eqb fid button_id); eauto.
Qed.


Lemma fix_buttons_spec (w : World) :
  exists w', fix_buttons w = (Ok tt, w') /\ pdf_viewer (app w') = pdf_viewer (app w) /\
             (is_Some (focused (app w)) -> is_Some (focused (app w'))) /\
             current_value (app w') = py_str (cursor w + 1) /\
             total_label (app w') = py_str (total w) /\
             prev_disabled (app w') = (cursor w =? 0) /\
             next_disabled (app w') = (total w - 1 =? cursor w) /\
             trace w' = (trace w ++ [EvFixButtons])%list.
Proof.
  mdone. psimpl. repeat split.
  intros Hf. now do 2 apply focus_after_disabling_some.
Qed.

(** A handler followed by [fix_buttons]: the viewer is as the handler
    left it, whether the handler returned or raised. *)
Lemma then_fix_buttons (m : M unit) (w : World) :
  exists r w1 w2, m w = (r, w1) /\ (run m; fix_buttons) w = (r, w2) /\
                  pdf_viewer (app w2) = pdf_viewer (app w1) /\
                  (is_Some (focused (app w1)) -> is_Some (focused (app w2))) /\
                  (r = Ok tt -> fix_buttons w1 = (Ok tt, w2)).
Proof.
  unfold bind at 1. destruct (m w) as [[[] | e] w1].
  - destruct (fix_buttons_spec w1) as (w2 & E & Hv & Hf & _).
    exists (Ok tt), w1, w2. rewrite E. repeat split; auto.
  - exists (Raise e), w1, w1. repeat split; auto. discriminate.
Qed.

Lemma write_then_fix_keeps_range (m : M unit) (z : Z) (w : World) :
  (exists w1, m w = (Ok tt, w1) /\ total w1 = total w /\
              focused (app w1) = focused (app w) /\ cursor w1 = z) ->
  0 <= z <= total w - 1 -> is_Some (focused (app w)) ->
  keeps_range (run m; fix_buttons) w.
Proof.
  intros (w1 & E1 & Ht & Hf & Hc) Hz Hfoc.
  destruct (fix_buttons_spec w1) as (w2 & E2 & Hv & Hf2 & _).
  exists w2. unfold bind. rewrite E1. split; [exact E2|].
  unfold cursor_in_range, cursor, total in *. rewrite Hv.
  split; [exact Ht | split; [apply Hf2; now rewrite Hf | lia]].
Qed.

Lemma go_to_start_spec (w : World) :
  1 <= total w ->
  exists w1, go_to_start w = (Ok tt, w1) /\ total w1 = total w /\
             focused (app w1) = focused (app w) /\ cursor w1 = 0.
Proof.
  intros HT. destruct (set_current_page_ok 0 w) as (w' & E & Ht & Hf & Hc & _); [lia|].
  exists w'. auto.
Qed.

Lemma go_to_end_spec (w : World) :
  1 <= total w ->
  exists w1, go_to_end w = (Ok tt, w1) /\ total w1 = total w /\
             focused (app w1) = focused (app w) /\ cursor w1 = total w - 1.
Proof.
  intros HT. unfold go_to_end. mrun. fold (total w).
  destruct (Z.eqb_spec (total w) 0); [lia|].
  destruct (set_current_page_ok (total w - 1) w) as (w' & E & Ht & Hf & Hc & _); [lia|].
  exists w'. auto.
Qed.

(** A key press in the key handler: with some widget focused it returns
    normally and keeps the cursor in range. *)
Lemma on_key_in_range (key : string) (w : World) :
  1 <= total w -> cursor_in_range w -> is_Some (focused (app w)) ->
  keeps_range (on_key key) w.
Proof.
  intros HT Hc Hfoc. pose proof Hfoc as [fid Hf].
  unfold keeps_range, on_key, bind at 1, get_app. rewrite Hf.
  destruct (String.eqb fid "current" && negb (key_in key ["up"; "down"])).
  { destruct (String.eqb key "escape").
    - eexists. split; [mrun; reflexivity|]. psimpl. repeat split; eauto; apply Hc.
    - exists w. repeat split; auto; apply Hc. }
  unfold cursor_in_range in Hc.
  destruct (key_in key next_keys).
  { change (keeps_range (run next_page; fix_buttons) w).
    destruct (next_page_spec w) as (w1 & E & Ht & Hf1 & Hn); [lia|].
    apply (write_then_fix_keeps_range _ (Z.min (cursor w + 1) (total w - 1)));
      [eauto 6 | lia | exact Hfoc]. }
  destruct (key_in key prev_keys).
  { change (keeps_range (run previous_page; fix_buttons) w).
    destruct (previous_page_spec w) as (w1 & E & Ht & Hf1 & Hn); [lia|].
    apply (write_then_fix_keeps_range _ (Z.max (cursor w - 1) 0));
      [eauto 6 | lia | exact Hfoc]. }
  destruct (key_in key start_keys).
  { change (keeps_range (run go_to_start; fix_buttons) w).
    apply (write_then_fix_keeps_range _ 0);
      [apply go_to_start_spec, HT | lia | exact Hfoc]. }
  destruct (key_in key end_keys).
  { change (keeps_range (run go_to_end; fix_buttons) w).
    apply (write_then_fix_keeps_range _ (total w - 1));
      [apply go_to_end_spec, HT | lia | exact Hfoc]. }
  destruct (String.eqb key "i").
  - eexists. split; [mrun; reflexivity|].
    unfold cursor_in_range. psimpl. repeat split; eauto; lia.
  - exists w. unfold cursor_in_range. repeat split; auto; lia.
Qed.

Lemma on_keys_in_range (keys : list string) :
  forall w, 1 <= total w -> cursor_in_range w -> is_Some (focused (app w)) ->
  keeps_range (on_keys keys) w.
Proof.
  induction keys as [|k ks IH]; intros w HT Hc Hf.
  - exists w. split; [reflexivity | auto].
  - destruct (on_key_in_range k w HT Hc Hf) as (w1 & E1 & Ht1 & Hf1 & Hc1).
    destruct (IH w1) as (w2 & E2 & Ht2 & Hf2 & Hc2); [lia | auto | auto |].
    exists w2. cbn [on_keys]. unfold bind at 1. rewrite E1.
    split; [exact E2 | split; [congruence | split; [exact Hf2 | exact Hc2]]].
Qed.

(** A press of the [<] or [>] button likewise. *)
Lemma on_button_pressed_in_range (button_id : string) (w : World) :
  1 <= total w -> cursor_in_range w -> is_Some (focused (app w)) ->
  keeps_range (on_button_pressed button_id) w.
Proof.
  intros HT Hc Hfoc. unfold on_button_pressed. unfold cursor_in_range in Hc.
  destruct (String.eqb button_id "prev"); [| destruct (String.eqb button_id "next")].
  - destruct (previous_page_spec w) as (w1 & E & Ht & Hf1 & Hn); [lia|].
    apply (write_then_fix_keeps_range _ (Z.max (cursor w - 1) 0));
      [eauto 6 | lia | exact Hfoc].
  - destruct (next_page_spec w) as (w1 & E & Ht & Hf1 & Hn); [lia|].
    apply (write_then_fix_keeps_range _ (Z.min (cursor w + 1) (total w - 1)));
      [eauto 6 | lia | exact Hfoc].
  - apply (write_then_fix_keeps_range _ (cursor w)); [| lia | exact Hfoc].
    exists w. auto.
Qed.

(** C1.  From a state with at least one page and the cursor in range,
    every finite sequence of [next()] and [previous()] calls returns
    normally and leaves the cursor within [0, total - 1]; [next()] repeated
    at the last page stays at [total - 1]; [previous()] repeated at the
    first page stays at [0]; the same range holds after any sequence of key
    presses handled by [on_key] while some widget is focused. *)
Theorem navigation_stays_in_range (w : World) :
  1 <= total w -> cursor_in_range w ->
  (forall calls, exists w',
      nav_calls calls w = (Ok tt, w') /\ total w' = total w /\
      0 <= cursor w' <= total w - 1) /\
  (forall n, cursor w = total w - 1 -> exists w',
      repeat_call n next_page w = (Ok tt, w') /\ cursor w' = total w - 1) /\
  (forall n, cursor w = 0 -> exists w',
      repeat_call n previous_page w = (Ok tt, w') /\ cursor w' = 0) /\
  (forall keys, is_Some (focused (app w)) -> exists w',
      on_keys keys w = (Ok tt, w') /\ total w' = total w /\
      0 <= cursor w' <= total w - 1).
Proof.
  intros HT Hc. repeat apply conj.
  - intros calls.
    destruct (nav_calls_in_range calls w HT Hc) as (w' & E & Ht & Hc').
    exists w'. unfold cursor_in_range in Hc'. rewrite Ht in Hc'. auto.
  - intros n Hlast.
    destruct (next_at_last_page n w Hlast) as (w' & E & _ & Hc'). eauto.
  - intros n Hfirst.
    destruct (previous_at_first_page n w Hfirst) as (w' & E & _ & Hc'). eauto.
  - intros keys Hf.
    destruct (on_keys_in_range keys w HT Hc Hf) as (w' & E & Ht & _ & Hc').
    exists w'. unfold cursor_in_range in Hc'. rewrite Ht in Hc'. auto.
Qed.

Lemma navigation_stays_in_range_witness :
  1 <= total (sample_world 1 3 2) /\ cursor_in_range (sample_world 1 3 2) /\
  exists w',
    nav_calls [Next; Next; Previous; Previous; Previous; Next] (sample_world 1 3 2)
      = (Ok tt, w') /\
    total w' = total (sample_world 1 3 2) /\
    0 <= cursor w' <= total (sample_world 1 3 2) - 1.
Proof.
  assert (HT : 1 <= total (sample_world 1 3 2)) by (vm_compute; discriminate).
  assert (Hc : cursor_in_range (sample_world 1 3 2))
    by (split; vm_compute; discriminate).
  split; [exact HT | split; [exact Hc |]].
  exact (proj1 (navigation_stays_in_range (sample_world 1 3 2) HT Hc)
               [Next; Next; Previous; Previous; Previous; Next]).
Defined.

(** ** The page-number input *)

Lemma on_input_changed_numeric (value : pytext) (v : Z) (w : World) :
  isnumeric value = true -> py_int value = Some v ->
  on_input_changed value w =
    if negb (cursor w =? v) && (v <? total w)
    then set_current_page (v - 1) w
    else (Ok tt, w).
Proof.
  intros Hn Hv. unfold on_input_changed. rewrite Hn.
  unfold int_of_value. rewrite Hv. mrun. psimpl.
  destruct (current_page (pdf_viewer (app w)) =? v); cbn [negb andb]; [reflexivity|].
  destruct (v <? page_count (doc (pdf_viewer (app w)))); reflexivity.
Qed.

Lemma on_input_changed_other (value : pytext) (w : World) :
  isnumeric value = false -> on_input_changed value w = (Ok tt, w).
Proof. intros Hn. unfold on_input_changed. rewrite Hn. reflexivity. Qed.

(** Numeric text that [int] refuses (a numeric character that is no
    decimal digit, or more digits than the limit) makes the handler raise
    [ValueError] before any write. *)
Lemma on_input_changed_refused (value : pytext) (w : World) :
  isnumeric value = true -> py_int value = None ->
  on_input_changed value w = (Raise ValueError, w).
Proof.
  intros Hn Hv. unfold on_input_changed. rewrite Hn.
  unfold int_of_value. rewrite Hv. reflexivity.
Qed.

(** The three things the handler can do. *)
Lemma on_input_changed_cases (value : pytext) (w : World) :
  on_input_changed value w = (Ok tt, w) \/
  on_input_changed value w = (Raise ValueError, w) \/
  exists v, 0 <= v /\ v <> cursor w /\ v < total w /\
            on_input_changed value w = set_current_page (v - 1) w.
Proof.
  destruct (isnumeric value) eqn:Hn.
  - destruct (py_int value) as [v|] eqn:Hv.
    + pose proof (py_int_nonneg value v Hv) as Hpos.
      rewrite (on_input_changed_numeric value v w Hn Hv).
      destruct (Z.eqb_spec (cursor w) v) as [Heq | Hne]; cbn [negb andb]; [now left|].
      destruct (Z.ltb_spec v (total w)) as [Hlt | Hge]; [| now left].
      right. right. exists v. repeat split; auto.
    + right. left. now apply on_input_changed_refused.
  - left. now apply on_input_changed_other.
Qed.

(** A typed page number above the page count is ignored. *)
Lemma jump_past_end_ignored (value : pytext) (v : Z) (w : World) :
  isnumeric value = true -> py_int value = Some v -> total w <= v ->
  on_input_changed value w = (Ok tt, w).
Proof.
  intros Hn Hv Hge. rewrite (on_input_changed_numeric value v w Hn Hv).
  destruct (Z.ltb_spec v (total w)); [lia|]. now rewrite andb_false_r.
Qed.

(** C10.  [fix_buttons] shows [current + 1] in the page-number input, as
    text that [int] reads back as [current + 1] (for a cursor from [-1] on
    and within the digit limit); a typed numeric value that [int] reads as
    [v] moves the cursor exactly when [v] differs from the 0-based current
    index and [v < total], and then to index [v - 1]; otherwise nothing
    changes. *)
Theorem page_input_is_one_based (w : World) (value : pytext) (v : Z) :
  isnumeric value = true -> py_int value = Some v ->
  (exists w1, fix_buttons w = (Ok tt, w1) /\
              current_value (app w1) = py_str (cursor w + 1) /\
              (0 <= cursor w + 1 ->
               Z.of_nat (String.length (py_str (cursor w + 1))) <= max_str_digits ->
               py_int (current_value (app w1)) = Some (cursor w + 1))) /\
  (exists w2, on_input_changed value w = (Ok tt, w2) /\
              total w2 = total w /\
              (v <> cursor w /\ v < total w -> cursor w2 = v - 1) /\
              (~ (v <> cursor w /\ v < total w) -> w2 = w)).
Proof.
  intros Hn Hv. split.
  - destruct (fix_buttons_spec w) as (w1 & E & _ & _ & Hval & _).
    exists w1. split; [exact E | split; [exact Hval |]].
    intros Hpos Hlen. rewrite Hval. now apply py_int_py_str.
  - pose proof (py_int_nonneg value v Hv) as Hpos.
    rewrite (on_input_changed_numeric value v w Hn Hv).
    destruct (Z.eqb_spec (cursor w) v) as [Heq | Hne]; cbn [negb andb].
    { exists w. repeat split; auto. intros [Hne _]. congruence. }
    destruct (Z.ltb_spec v (total w)) as [Hlt | Hge].
    + destruct (set_current_page_ok (v - 1) w) as (w2 & E & Ht & _ & Hc & _); [lia|].
      exists w2. repeat split; auto.
      intros Hnot. exfalso. apply Hnot. split; [congruence | lia].
    + exists w. repeat split; auto. intros [_ Hlt]. lia.
Qed.

Lemma page_input_is_one_based_witness :
  (exists w1, fix_buttons (sample_world 1 5 2) = (Ok tt, w1) /\
              current_value (app w1) = py_str (cursor (sample_world 1 5 2) + 1) /\
              (0 <= cursor (sample_world 1 5 2) + 1 ->
               Z.of_nat (String.length (py_str (cursor (sample_world 1 5 2) + 1)))
                 <= max_str_digits ->
               py_int (current_value (app w1)) = Some (cursor (sample_world 1 5 2) + 1))) /\
  (exists w2, on_input_changed "4" (sample_world 1 5 2) = (Ok tt, w2) /\
              total w2 = total (sample_world 1 5 2) /\
              (4 <> cursor (sample_world 1 5 2) /\ 4 < total (sample_world 1 5 2) ->
               cursor w2 = 4 - 1) /\
              (~ (4 <> cursor (sample_world 1 5 2) /\ 4 < total (sample_world 1 5 2)) ->
               w2 = sample_world 1 5 2)).
Proof.
  apply (page_input_is_one_based (sample_world 1 5 2) "4" 4); reflexivity.
Defined.

(** C5.  On a 5-page document at page index 2, typing ["0"] (the jump
    request [n = -1]) is not ignored: the handler returns normally and
    moves the cursor to [-1]. *)
Theorem typed_zero_moves_cursor_below_first_page :
  cursor (sample_world 1 5 2) = 2 /\ total (sample_world 1 5 2) = 5 /\
  exists w', on_input_changed "0" (sample_world 1 5 2) = (Ok tt, w') /\
             total w' = 5 /\ cursor w' = -1.
Proof.
  split; [reflexivity | split; [reflexivity |]].
  eexists. split; [vm_compute; reflexivity |]. split; reflexivity.
Qed.

(** C6.  On a 5-page document, typing ["5"] at page index 0 (the in-range
    jump request [n = 4], the last page) leaves the cursor at 0, and
    typing ["2"] at page index 2 (the in-range request [n = 1]) leaves the
    cursor at 2. *)
Theorem in_range_jumps_rejected :
  on_input_changed "5" (sample_world 1 5 0) = (Ok tt, sample_world 1 5 0) /\
  cursor (sample_world 1 5 0) = 0 /\
  on_input_changed "2" (sample_world 1 5 2) = (Ok tt, sample_world 1 5 2) /\
  cursor (sample_world 1 5 2) = 2.
Proof. repeat split. Qed.

(** ** The file watcher *)


(** An iteration that sees a changed modification time and reopens the
    file as a document with at least one page. *)
Lemma watch_iteration_reloads (o : Observation) (prev m : Z) (d : Document) (w : World) :
  obs_stat o = Ok m -> m <> prev -> obs_open o = Ok d -> 1 <= page_count d ->
  exists c,
    cache_from d c /\
    watch_iteration o prev w =
      (Ok m,
       mkWorld
         (mkApp (mkPDFViewer d (reloaded_cursor (cursor w) (page_count d)) c)
                (reloaded_cursor (cursor w) (page_count d) =? 0)
                (page_count d - 1 =? reloaded_cursor (cursor w) (page_count d))
                (py_str (reloaded_cursor (cursor w) (page_count d) + 1))
                (py_str (page_count d))
                (focus_after_disabling "next" (next_disabled (app w))
                   (page_count d - 1 =? reloaded_cursor (cursor w) (page_count d))
                   (focus_after_disabling "prev" (prev_disabled (app w))
                      (reloaded_cursor (cursor w) (page_count d) =? 0)
                      (focused (app w)))))
         (trace w ++ [EvStat; EvOpen; EvSetDoc; EvSetCache]
            ++ reload_writes (cursor w) (page_count d) ++ [EvFixButtons])).
Proof.
  intros Hs Hne Ho Hpages.
  assert (Hempty : cache_from d ∅) by (intros i a H; rewrite lookup_empty in H; discriminate).
  unfold watch_iteration, reload, reloaded_cursor, reload_writes.
  mrun. rewrite Hs, Ho.
  destruct (Z.eqb_spec m prev) as [|_]; [contradiction|]. cbn [negb]. psimpl.
  destruct (Z.leb_spec (page_count d) (current_page (pdf_viewer (app w)))) as [Hle | Hgt].
  - write_cursor r c Hc Hok Hnone Hsame. psimpl.
    rewrite (Hok ltac:(lia) ltac:(lia)).
    exists c. split.
    { eapply cache_from_write; [exact Hempty | exact Hc]. }
    cbv beta iota zeta. psimpl.
    rewrite <- !app_assoc. reflexivity.
  - write_cursor r1 c1 Hc1 Hok1 Hnone1 Hsame1. psimpl.
    rewrite (Hok1 ltac:(lia) ltac:(lia)).
    write_cursor r2 c2 Hc2 Hok2 Hnone2 Hsame2. psimpl.
    rewrite (Hok2 ltac:(lia) ltac:(lia)).
    exists c2. split.
    { eapply cache_from_write; [| exact Hc2].
      eapply cache_from_write; [exact Hempty | exact Hc1]. }
    cbv beta iota zeta. psimpl.
    rewrite <- !app_assoc. reflexivity.
Qed.

(** An iteration that sees a changed modification time and reopens the
    file as a document without pages: the first cursor write raises
    [PDFRuntimeError] in the re-render, with the new document, an empty
    cache and the written cursor in place, and [fix_buttons] is not
    reached. *)
Lemma watch_iteration_reload_empty (o : Observation) (prev m : Z) (d : Document) (w : World) :
  obs_stat o = Ok m -> m <> prev -> obs_open o = Ok d -> page_count d <= 0 ->
  watch_iteration o prev w =
    (Raise PDFRuntimeError,
     mkWorld
       (with_viewer
          (mkPDFViewer d (if page_count d <=? cursor w then page_count d - 1
                          else cursor w - 1) ∅) (app w))
       (trace w ++ [EvStat; EvOpen; EvSetDoc; EvSetCache;
                    EvSetCurrentPage (if page_count d <=? cursor w then page_count d - 1
                                      else cursor w - 1)])).
Proof.
  intros Hs Hne Ho Hpages.
  unfold watch_iteration, reload.
  mrun. rewrite Hs, Ho.
  destruct (Z.eqb_spec m prev) as [|_]; [contradiction|]. cbn [negb]. psimpl.
  destruct (Z.leb_spec (page_count d) (current_page (pdf_viewer (app w)))) as [Hle | Hgt];
    write_cursor r c Hc Hok Hnone Hsame; psimpl;
    destruct (Hnone ltac:(lia) ltac:(lia)) as [-> ->];
    cbv beta iota zeta; psimpl; rewrite <- !app_assoc; reflexivity.
Qed.

(** An iteration that sees a changed modification time and whose reopen
    raises [e]: nothing of the application is written; the exception
    leaves the [with] block unless it is the suppressed one. *)
Lemma watch_iteration_reopen_fails (o : Observation) (prev m : Z) (e : exn) (w : World) :
  obs_stat o = Ok m -> m <> prev -> obs_open o = Raise e ->
  watch_iteration o prev w =
    (if exn_eqb NotAPDFError e then Ok m else Raise e,
     mkWorld (app w) (trace w ++ [EvStat; EvOpen])).
Proof.
  intros Hs Hne Ho. unfold watch_iteration, reload. mrun. rewrite Hs, Ho.
  destruct (Z.eqb_spec m prev) as [|_]; [contradiction|]. cbn [negb].
  psimpl. rewrite <- app_assoc. cbn [List.app].
  destruct (exn_eqb NotAPDFError e); reflexivity.
Qed.

(** None of the exceptions [fitz.open] raises is the suppressed one. *)
Lemma fitz_error_not_suppressed (e : exn) :
  fitz_error e -> exn_eqb NotAPDFError e = false.
Proof. intros [-> | [-> | ->]]; reflexivity. Qed.

(** So a reopen that fails ends the iteration, and with it the worker,
    with the exception [fitz.open] raised. *)
Lemma watch_iteration_fitz_error (o : Observation) (prev m : Z) (e : exn) (w : World) :
  obs_stat o = Ok m -> m <> prev -> obs_open o = Raise e -> fitz_error e ->
  watch_iteration o prev w = (Raise e, mkWorld (app w) (trace w ++ [EvStat; EvOpen])).
Proof.
  intros Hs Hne Ho He.
  rewrite (watch_iteration_reopen_fails o prev m e w Hs Hne Ho).
  now rewrite (fitz_error_not_suppressed e He).
Qed.

(** An iteration that sees the modification time it saw before does
    nothing but the [stat] call. *)
Lemma watch_iteration_unchanged (o : Observation) (prev : Z) (w : World) :
  obs_stat o = Ok prev ->
  watch_iteration o prev w = (Ok prev, mkWorld (app w) (trace w ++ [EvStat])).
Proof.
  intros Hs. unfold watch_iteration. mrun. rewrite Hs. psimpl.
  rewrite Z.eqb_refl. reflexivity.
Qed.

(** An iteration whose [stat] call raises ends the worker at once. *)
Lemma watch_iteration_stat_fails (o : Observation) (prev : Z) (e : exn) (w : World) :
  obs_stat o = Raise e ->
  watch_iteration o prev w = (Raise e, mkWorld (app w) (trace w ++ [EvStat])).
Proof. intros Hs. unfold watch_iteration. mrun. rewrite Hs. reflexivity. Qed.

Lemma events_since_app (w w' : World) (evs : list event) :
  trace w' = (trace w ++ evs)%list -> events_since w w' = evs.
Proof.
  intros E. unfold events_since. rewrite E.
  rewrite skipn_app, skipn_all, Nat.sub_diag. reflexivity.
Qed.

(** Whatever the reopen gives, an iteration that sees a changed
    modification time calls [fitz.open], right after [stat]. *)
Lemma watch_iteration_opens (o : Observation) (prev m : Z) (w : World) :
  obs_stat o = Ok m -> m <> prev ->
  exists evs, trace (snd (watch_iteration o prev w))
              = (trace w ++ [EvStat; EvOpen] ++ evs)%list.
Proof.
  intros Hs Hne. destruct (obs_open o) as [d | e] eqn:Ho.
  - destruct (Z_le_gt_dec 1 (page_count d)) as [Hpages | Hnone].
    + destruct (watch_iteration_reloads o prev m d w Hs Hne Ho Hpages) as (c & _ & E).
      rewrite E. cbn [snd trace]. eexists. reflexivity.
    + rewrite (watch_iteration_reload_empty o prev m d w Hs Hne Ho ltac:(lia)).
      cbn [snd trace]. eexists. reflexivity.
  - rewrite (watch_iteration_reopen_fails o prev m e w Hs Hne Ho).
    cbn [snd trace]. exists []. reflexivity.
Qed.

(** Discharge a side condition at a sample world by evaluation. *)
Ltac concrete :=
  unfold cached_world, sample_world; psimpl; try reflexivity; try lia.

(** C2.  A successful reload that shrinks the document from [T] to [T']
    pages, [0 < T' < T], with the cursor on the old last page [T - 1],
    leaves the cursor on the new last page [T' - 1]; every entry of the
    render cache was rendered from the reopened document, so none comes
    from the document it replaces; the [next] button is disabled. *)
Theorem shrinking_reload_moves_to_new_last_page
    (o : Observation) (prev m : Z) (d : Document) (w : World) :
  obs_stat o = Ok m -> m <> prev -> obs_open o = Ok d ->
  0 < page_count d < total w -> cursor w = total w - 1 ->
  exists w', watch_iteration o prev w = (Ok m, w') /\
             total w' = page_count d /\
             cursor w' = page_count d - 1 /\
             (forall i a, cache w' !! i = Some a -> art_doc a = doc_id d) /\
             (doc_id d <> doc_id (document w) ->
              forall i a, cache w' !! i = Some a -> art_doc a <> doc_id (document w)) /\
             next_disabled (app w') = true.
Proof.
  intros Hs Hne Ho Hshrink Hlast.
  destruct (watch_iteration_reloads o prev m d w Hs Hne Ho ltac:(lia)) as (c & Hc & E).
  assert (Hcur : reloaded_cursor (cursor w) (page_count d) = page_count d - 1).
  { unfold reloaded_cursor. destruct (Z.leb_spec (page_count d) (cursor w)); lia. }
  eexists. split; [exact E|]. psimpl. rewrite Hcur.
  repeat split; auto.
  - intros i a Hia. exact (proj1 (Hc i a Hia)).
  - intros Hfresh i a Hia. rewrite (proj1 (Hc i a Hia)). exact Hfresh.
  - apply Z.eqb_refl.
Qed.

Lemma shrinking_reload_moves_to_new_last_page_witness :
  exists w', watch_iteration (mkObservation (Ok 7) (Ok (mkDocument 2 3))) 6
                             (cached_world 1 5 4) = (Ok 7, w') /\
             total w' = 3 /\ cursor w' = 3 - 1 /\
             (forall i a, cache w' !! i = Some a -> art_doc a = 2%N) /\
             (2%N <> doc_id (document (cached_world 1 5 4)) ->
              forall i a, cache w' !! i = Some a ->
                          art_doc a <> doc_id (document (cached_world 1 5 4))) /\
             next_disabled (app w') = true.
Proof.
  apply (shrinking_reload_moves_to_new_last_page
           (mkObservation (Ok 7) (Ok (mkDocument 2 3))) 6 7 (mkDocument 2 3)
           (cached_world 1 5 4)); concrete.
Defined.

(** C7.  A successful reload that keeps or grows the page count, with the
    cursor at any [c] in [0, old total), [c = 0] included, leaves the
    cursor at [c]. *)
Theorem growing_reload_keeps_cursor
    (o : Observation) (prev m : Z) (d : Document) (w : World) :
  obs_stat o = Ok m -> m <> prev -> obs_open o = Ok d ->
  total w <= page_count d -> 0 <= cursor w < total w ->
  exists w', watch_iteration o prev w = (Ok m, w') /\
             total w' = page_count d /\ cursor w' = cursor w.
Proof.
  intros Hs Hne Ho Hgrow Hc.
  destruct (watch_iteration_reloads o prev m d w Hs Hne Ho ltac:(lia)) as (c & _ & E).
  eexists. split; [exact E|]. psimpl. split; [reflexivity|].
  unfold reloaded_cursor.
  destruct (Z.leb_spec (page_count d) (current_page (pdf_viewer (app w)))); lia.
Qed.

Lemma growing_reload_keeps_cursor_witness :
  exists w', watch_iteration (mkObservation (Ok 7) (Ok (mkDocument 2 3))) 6
                             (cached_world 1 3 0) = (Ok 7, w') /\
             total w' = 3 /\ cursor w' = cursor (cached_world 1 3 0).
Proof.
  apply (growing_reload_keeps_cursor
           (mkObservation (Ok 7) (Ok (mkDocument 2 3))) 6 7 (mkDocument 2 3)
           (cached_world 1 3 0)); concrete.
Defined.

(** C8.  A 5-page document at page index 2 whose file is rewritten as a
    document without pages: the reload assigns [current_page = 0 - 1], the
    re-render of that write raises [PDFRuntimeError], which the [with]
    block does not suppress; the iteration ends with total 0 and cursor
    [-1], and [fix_buttons] is never reached. *)
Theorem empty_reload_raises_at_cursor_write :
  fst (watch_iteration (mkObservation (Ok 7) (Ok (mkDocument 2 0))) 6
                       (cached_world 1 5 2)) = Raise PDFRuntimeError /\
  total (snd (watch_iteration (mkObservation (Ok 7) (Ok (mkDocument 2 0))) 6
                              (cached_world 1 5 2))) = 0 /\
  cursor (snd (watch_iteration (mkObservation (Ok 7) (Ok (mkDocument 2 0))) 6
                               (cached_world 1 5 2))) = -1 /\
  events_since (cached_world 1 5 2)
    (snd (watch_iteration (mkObservation (Ok 7) (Ok (mkDocument 2 0))) 6
                          (cached_world 1 5 2)))
    = [EvStat; EvOpen; EvSetDoc; EvSetCache; EvSetCurrentPage (-1)].
Proof.
  rewrite (watch_iteration_reload_empty (mkObservation (Ok 7) (Ok (mkDocument 2 0)))
             6 7 (mkDocument 2 0) (cached_world 1 5 2)
             eq_refl ltac:(lia) eq_refl ltac:(cbn; lia)).
  repeat split.
Qed.

(** C3.  A 5-page document whose file is being rewritten: the modification
    time has changed and [fitz.open] raises [FileDataError].  The
    exception is not the one the [with] block suppresses, so it leaves
    the iteration and ends the worker; nothing of the application was
    written. *)
Theorem reopen_failure_ends_watcher :
  watch_iteration (mkObservation (Ok 7) (Raise FileDataError)) 6 (cached_world 1 5 4)
    = (Raise FileDataError,
       mkWorld (app (cached_world 1 5 4)) [EvStat; EvOpen]).
Proof.
  rewrite (watch_iteration_reopen_fails (mkObservation (Ok 7) (Raise FileDataError))
             6 7 FileDataError (cached_world 1 5 4)
             eq_refl ltac:(lia) eq_refl).
  reflexivity.
Qed.

(** C4, as the code has it.  The watcher keeps no record of a failed
    attempt: an iteration calls [fitz.open] exactly when the modification
    time it observes differs from the one recorded by the iteration
    before, and an iteration that completes records the modification time
    it observed. *)
Theorem reopen_needs_new_mtime (o : Observation) (prev m : Z) (w : World) :
  obs_stat o = Ok m ->
  (In EvOpen (events_since w (snd (watch_iteration o prev w))) <-> m <> prev) /\
  (forall m', fst (watch_iteration o prev w) = Ok m' -> m' = m).
Proof.
  intros Hs. destruct (Z.eq_dec m prev) as [-> | Hne].
  - rewrite (watch_iteration_unchanged o prev w Hs). cbn [fst snd]. split.
    + erewrite events_since_app by reflexivity. cbn.
      split; [intros [H | []]; discriminate H | congruence].
    + now intros m' [= <-].
  - split.
    + destruct (watch_iteration_opens o prev m w Hs Hne) as (evs & Htr).
      rewrite (events_since_app w _ _ Htr). cbn. tauto.
    + destruct (obs_open o) as [d | e] eqn:Ho.
      * destruct (Z_le_gt_dec 1 (page_count d)) as [Hpages | Hnone].
        -- destruct (watch_iteration_reloads o prev m d w Hs Hne Ho Hpages) as (c & _ & E).
           rewrite E. now intros m' [= <-].
        -- rewrite (watch_iteration_reload_empty o prev m d w Hs Hne Ho ltac:(lia)).
           discriminate.
      * rewrite (watch_iteration_reopen_fails o prev m e w Hs Hne Ho). cbn [fst].
        destruct (exn_eqb NotAPDFError e); [now intros m' [= <-] | discriminate].
Qed.

Lemma reopen_needs_new_mtime_witness :
  (In EvOpen (events_since (sample_world 1 5 4)
                (snd (watch_iteration (mkObservation (Ok 7) (Ok (mkDocument 2 3))) 7
                                      (sample_world 1 5 4))))
   <-> 7 <> 7) /\
  (forall m', fst (watch_iteration (mkObservation (Ok 7) (Ok (mkDocument 2 3))) 7
                                   (sample_world 1 5 4)) = Ok m' -> m' = 7).
Proof.
  apply (reopen_needs_new_mtime (mkObservation (Ok 7) (Ok (mkDocument 2 3))) 7 7
           (sample_world 1 5 4)).
  reflexivity.
Defined.

(** C4 as stated fails: the modification time changes to 7 and the reopen
    raises [FileDataError]; the exception ends the worker, so at the next
    tick (modification time still 7, the file now a valid 3-page
    document) nothing runs: [fitz.open] was called once in all, and the
    viewer keeps the 5-page document. *)
Lemma no_retry_after_failed_reopen :
  fst (watch_loop [mkObservation (Ok 7) (Raise FileDataError);
                   mkObservation (Ok 7) (Ok (mkDocument 2 3))] 6
                  (sample_world 1 5 4)) = Raise FileDataError /\
  trace (snd (watch_loop [mkObservation (Ok 7) (Raise FileDataError);
                          mkObservation (Ok 7) (Ok (mkDocument 2 3))] 6
                         (sample_world 1 5 4))) = [EvStat; EvOpen] /\
  document (snd (watch_loop [mkObservation (Ok 7) (Raise FileDataError);
                             mkObservation (Ok 7) (Ok (mkDocument 2 3))] 6
                            (sample_world 1 5 4))) = mkDocument 1 5.
Proof. repeat split. Qed.

(** C9.  In every reload whose reopen succeeds the events of the
    iteration are, in this order: the [stat] call, the reopen, the
    document assignment, one cache assignment, then the cursor writes (at
    least one), then [fix_buttons] if the writes returned; with a
    document of at least one page they do return and [fix_buttons] comes
    last.  Every entry the cache holds afterwards was rendered from the
    reopened document. *)
Theorem reload_clears_cache_before_cursor_before_refresh
    (o : Observation) (prev m : Z) (d : Document) (w : World) :
  obs_stat o = Ok m -> m <> prev -> obs_open o = Ok d ->
  exists r w' writes refresh,
    watch_iteration o prev w = (r, w') /\
    writes <> [] /\ Forall is_cursor_write writes /\
    (refresh = [] \/ refresh = [EvFixButtons]) /\
    events_since w w' =
      ([EvStat; EvOpen; EvSetDoc; EvSetCache] ++ writes ++ refresh)%list /\
    document w' = d /\
    (forall i a, cache w' !! i = Some a -> art_doc a = doc_id d) /\
    (1 <= page_count d -> r = Ok m /\ refresh = [EvFixButtons]).
Proof.
  intros Hs Hne Ho.
  destruct (Z_le_gt_dec 1 (page_count d)) as [Hpages | Hnone].
  - destruct (watch_iteration_reloads o prev m d w Hs Hne Ho Hpages) as (c & Hc & E).
    do 2 eexists. exists (reload_writes (cursor w) (page_count d)), [EvFixButtons].
    split; [exact E|].
    split; [unfold reload_writes; destruct (page_count d <=? cursor w); discriminate|].
    split. { unfold reload_writes, is_cursor_write.
             destruct (page_count d <=? cursor w); repeat constructor; eexists; reflexivity. }
    split; [now right|].
    split; [apply events_since_app; reflexivity|].
    split; [reflexivity|].
    split; [intros i a Hia; exact (proj1 (Hc i a Hia))|]. auto.
  - do 2 eexists.
    exists [EvSetCurrentPage (if page_count d <=? cursor w then page_count d - 1
                              else cursor w - 1)], [].
    split; [exact (watch_iteration_reload_empty o prev m d w Hs Hne Ho ltac:(lia))|].
    split; [discriminate|].
    split; [repeat constructor; eexists; reflexivity|].
    split; [now left|].
    split; [apply events_since_app; reflexivity|].
    split; [reflexivity|].
    split; [intros i a; psimpl; rewrite lookup_empty; discriminate|].
    intros Hpages. lia.
Qed.

Lemma reload_clears_cache_before_cursor_before_refresh_witness :
  exists r w' writes refresh,
    watch_iteration (mkObservation (Ok 7) (Ok (mkDocument 2 3))) 6
                    (cached_world 1 5 4) = (r, w') /\
    writes <> [] /\ Forall is_cursor_write writes /\
    (refresh = [] \/ refresh = [EvFixButtons]) /\
    events_since (cached_world 1 5 4) w' =
      ([EvStat; EvOpen; EvSetDoc; EvSetCache] ++ writes ++ refresh)%list /\
    document w' = mkDocument 2 3 /\
    (forall i a, cache w' !! i = Some a -> art_doc a = 2%N) /\
    (1 <= 3 -> r = Ok 7 /\ refresh = [EvFixButtons]).
Proof.
  apply (reload_clears_cache_before_cursor_before_refresh
           (mkObservation (Ok 7) (Ok (mkDocument 2 3))) 6 7 (mkDocument 2 3)
           (cached_world 1 5 4)); concrete.
Defined.

(** * Further properties of the application *)

(** ** Widgets and focus *)

Lemma focus_after_disabling_same (button_id : string) (b : bool) (f : option string) :
  focus_after_disabling button_id b b f = f.
Proof.
  unfold focus_after_disabling. destruct f as [fid|]; [|reflexivity].
  destruct b; reflexivity.
Qed.



(** X2.  After [fix_buttons] both buttons are disabled exactly when the
    document has a single page and the cursor is on it. *)
Theorem both_buttons_disabled_iff_single_page (w : World) :
  prev_disabled (app (snd (fix_buttons w))) = true /\
  next_disabled (app (snd (fix_buttons w))) = true
  <-> cursor w = 0 /\ total w = 1.
Proof.
  destruct (fix_buttons_spec w) as (w' & E & _ & _ & _ & _ & Hp & Hn & _).
  rewrite E. cbn [snd]. rewrite Hp, Hn. rewrite !Z.eqb_eq. lia.
Qed.

(** X3.  While the page-number input has the focus, a key other than
    ["up"] and ["down"] never reaches the viewer: the handler returns
    normally without any write; only ["escape"] does something, it moves
    the focus to the [empty_focusable] label. *)
Theorem keys_in_input_do_not_navigate (key : string) (w : World) :
  focused (app w) = Some "current" -> key_in key ["up"; "down"] = false ->
  exists w', on_key key w = (Ok tt, w') /\
             pdf_viewer (app w') = pdf_viewer (app w) /\
             trace w' = trace w /\
             (String.eqb key "escape" = true ->
              app w' = with_focused (Some "empty_focusable") (app w)) /\
             (String.eqb key "escape" = false -> w' = w).
Proof.
  intros Hf Hk. unfold on_key, bind at 1, get_app. rewrite Hf, Hk.
  cbn [String.eqb Ascii.eqb Bool.eqb negb andb].
  destruct (String.eqb key "escape").
  - mdone. psimpl. repeat split. discriminate.
  - exists w. repeat split. discriminate.
Qed.

Lemma keys_in_input_do_not_navigate_witness :
  exists w', on_key "j" (mkWorld (with_focused (Some "current") (app (sample_world 1 5 2))) [])
               = (Ok tt, w') /\
             pdf_viewer (app w') = pdf_viewer (with_focused (Some "current") (app (sample_world 1 5 2))) /\
             trace w' = [] /\
             (String.eqb "j" "escape" = true ->
              app w' = with_focused (Some "empty_focusable")
                         (with_focused (Some "current") (app (sample_world 1 5 2)))) /\
             (String.eqb "j" "escape" = false ->
              w' = mkWorld (with_focused (Some "current") (app (sample_world 1 5 2))) []).
Proof.
  apply (keys_in_input_do_not_navigate "j"
           (mkWorld (with_focused (Some "current") (app (sample_world 1 5 2))) []));
    reflexivity.
Defined.

Lemma prev_key_cases (key : string) :
  key_in key prev_keys = true ->
  key = "up" \/ key = "page_up" \/ key = "left" \/ key = "k" \/ key = "h".
Proof.
  unfold key_in, prev_keys. cbn [existsb]. rewrite !orb_true_iff, !String.eqb_eq.
  intuition discriminate.
Qed.

(** X4.  A key of the "next" group does exactly what a press of the [>]
    button does, and a key of the "previous" group what a press of [<]
    does, whenever the key is let through: the focus is not on the
    page-number input, or the key is ["up"] or ["down"]. *)
Theorem keys_act_like_buttons (key fid : string) (w : World) :
  focused (app w) = Some fid ->
  String.eqb fid "current" = false \/ key_in key ["up"; "down"] = true ->
  (key_in key next_keys = true -> on_key key w = on_button_pressed "next" w) /\
  (key_in key prev_keys = true -> on_key key w = on_button_pressed "prev" w).
Proof.
  intros Hf Hpass.
  assert (Hguard : String.eqb fid "current" && negb (key_in key ["up"; "down"]) = false).
  { destruct Hpass as [-> | ->]; [reflexivity | apply andb_false_r]. }
  split; intros Hk.
  - unfold on_key, bind at 1, get_app. rewrite Hf, Hguard, Hk. reflexivity.
  - assert (Hn : key_in key next_keys = false).
    { destruct (prev_key_cases key Hk) as [-> | [-> | [-> | [-> | ->]]]]; reflexivity. }
    unfold on_key, bind at 1, get_app. rewrite Hf, Hguard, Hn, Hk. reflexivity.
Qed.

Lemma keys_act_like_buttons_witness :
  (key_in "l" next_keys = true ->
   on_key "l" (sample_world 1 5 2) = on_button_pressed "next" (sample_world 1 5 2)) /\
  (key_in "l" prev_keys = true ->
   on_key "l" (sample_world 1 5 2) = on_button_pressed "prev" (sample_world 1 5 2)).
Proof.
  apply (keys_act_like_buttons "l" "empty_focusable" (sample_world 1 5 2));
    [reflexivity | left; reflexivity].
Defined.

(** X5.  From a focus that is not on the page-number input, key ["i"]
    moves the focus to the input; from there ["escape"] and submitting the
    input both move it to the [empty_focusable] label, and the whole round
    trip writes nothing else. *)
Theorem input_focus_round_trip (fid : string) (w : World) :
  focused (app w) = Some fid -> String.eqb fid "current" = false ->
  exists w1 w2,
    on_key "i" w = (Ok tt, w1) /\ focused (app w1) = Some "current" /\
    on_key "escape" w1 = (Ok tt, w2) /\ on_input_submitted w1 = (Ok tt, w2) /\
    app w2 = with_focused (Some "empty_focusable") (app w) /\
    trace w2 = trace w.
Proof.
  intros Hf Hne. do 2 eexists.
  split. { unfold on_key, bind at 1, get_app. rewrite Hf, Hne. reflexivity. }
  split; [reflexivity |]. split; [mrun; reflexivity |].
  split; [mrun; reflexivity |]. split; reflexivity.
Qed.

Lemma input_focus_round_trip_witness :
  exists w1 w2,
    on_key "i" (sample_world 1 5 2) = (Ok tt, w1) /\
    focused (app w1) = Some "current" /\
    on_key "escape" w1 = (Ok tt, w2) /\ on_input_submitted w1 = (Ok tt, w2) /\
    app w2 = with_focused (Some "empty_focusable") (app (sample_world 1 5 2)) /\
    trace w2 = trace (sample_world 1 5 2).
Proof.
  apply (input_focus_round_trip "empty_focusable" (sample_world 1 5 2)); reflexivity.
Defined.

(** X6.  [on_mount] returns normally from any state of the composed
    widgets, leaves the viewer alone, puts the focus on the
    [empty_focusable] label, and leaves the buttons, the page-number input
    and the total label in line with the viewer. *)
Theorem on_mount_focuses_and_syncs (w : World) :
  exists w', on_mount w = (Ok tt, w') /\
             pdf_viewer (app w') = pdf_viewer (app w) /\
             focused (app w') = Some "empty_focusable" /\
             widgets_in_sync (app w').
Proof.
  eexists. split; [unfold on_mount, set_total_label; mrun; reflexivity |].
  unfold widgets_in_sync. psimpl. repeat split.
  unfold focus_after_disabling. cbn [String.eqb Ascii.eqb Bool.eqb].
  rewrite !andb_false_r. reflexivity.
Qed.

(** ** The page-number input, continued *)

(** X7.  Whatever is typed, [on_input_changed] writes at most the
    viewer's [current_page]: the document, the focus, the two buttons'
    [disabled] flags, the total label and the input's own value are as
    before, so the buttons are not refreshed by a typed jump. *)
Theorem input_change_writes_only_the_cursor (value : pytext) (w : World) :
  document (snd (on_input_changed value w)) = document w /\
  focused (app (snd (on_input_changed value w))) = focused (app w) /\
  prev_disabled (app (snd (on_input_changed value w))) = prev_disabled (app w) /\
  next_disabled (app (snd (on_input_changed value w))) = next_disabled (app w) /\
  current_value (app (snd (on_input_changed value w))) = current_value (app w) /\
  total_label (app (snd (on_input_changed value w))) = total_label (app w).
Proof.
  destruct (on_input_changed_cases value w) as [-> | [-> | (v & _ & _ & _ & ->)]];
    [repeat split .. |].
  destruct (set_current_page_spec (v - 1) w) as (r & c & -> & _).
  repeat split.
Qed.

(** X8.  Whatever is typed, [on_input_changed] either leaves the cursor
    where it is or puts it in [-1, total - 2]: the last page is never
    reached through the input, and the cursor never goes below [-1]. *)
Theorem input_change_never_reaches_last_page (value : pytext) (w : World) :
  cursor (snd (on_input_changed value w)) = cursor w \/
  -1 <= cursor (snd (on_input_changed value w)) <= total w - 2.
Proof.
  destruct (on_input_changed_cases value w) as [-> | [-> | (v & Hpos & _ & Hlt & ->)]];
    [now left .. |].
  destruct (set_current_page_spec (v - 1) w) as (r & c & -> & _).
  right. psimpl. lia.
Qed.
(** ** The file watcher, continued *)

Lemma watch_loop_cons (o : Observation) (os : list Observation) (prev : Z) (w : World) :
  watch_loop (o :: os) prev w =
    match watch_iteration o prev w with
    | (Ok m, w') => watch_loop os m w'
    | (Raise e, w') => (Raise e, w')
    end.
Proof. reflexivity. Qed.

Lemma watch_loop_app (os1 os2 : list Observation) :
  forall prev w,
    watch_loop (os1 ++ os2) prev w =
      match watch_loop os1 prev w with
      | (Ok m, w') => watch_loop os2 m w'
      | (Raise e, w') => (Raise e, w')
      end.
Proof.
  induction os1 as [|o os1 IH]; intros prev w; [reflexivity|].
  cbn [List.app]. rewrite !watch_loop_cons.
  destruct (watch_iteration o prev w) as [[m | e] w1]; [apply IH | reflexivity].
Qed.

Lemma watch_loop_idle (os : list Observation) (prev : Z) :
  forall w, Forall (fun o => obs_stat o = Ok prev) os ->
  watch_loop os prev w =
    (Ok prev, mkWorld (app w) (trace w ++ repeat EvStat (length os))).
Proof.
  induction os as [|o os IH]; intros w Hall.
  - cbn. rewrite app_nil_r. now destruct w.
  - inversion Hall as [|? ? Ho Hos]; subst.
    rewrite watch_loop_cons, (watch_iteration_unchanged o prev w Ho), (IH _ Hos).
    cbn [app trace length repeat]. rewrite <- app_assoc. reflexivity.
Qed.

(** X10.  As long as [stat] keeps reporting the modification time the
    watcher already knows, the watcher does nothing, for any number of
    iterations: no reopen, no write to the application, one [stat] call
    per iteration, and the recorded time stays. *)
Theorem idle_watcher_does_nothing (os : list Observation) (prev : Z) (w : World) :
  Forall (fun o => obs_stat o = Ok prev) os ->
  watch_loop os prev w =
    (Ok prev, mkWorld (app w) (trace w ++ repeat EvStat (length os))).
Proof. apply watch_loop_idle. Qed.

Lemma idle_watcher_does_nothing_witness :
  watch_loop [mkObservation (Ok 6) (Ok (mkDocument 2 3));
              mkObservation (Ok 6) (Raise FileDataError)] 6 (cached_world 1 5 4) =
    (Ok 6, mkWorld (app (cached_world 1 5 4))
                   (trace (cached_world 1 5 4) ++ repeat EvStat 2)).
Proof.
  apply (idle_watcher_does_nothing
           [mkObservation (Ok 6) (Ok (mkDocument 2 3));
            mkObservation (Ok 6) (Raise FileDataError)] 6 (cached_world 1 5 4)).
  repeat constructor.
Defined.

(** X11.  A [stat] call that raises ends the worker with that exception:
    in the loop (line 59), after any number of idle iterations, whatever
    the file does afterwards, and already at the first [stat] of line 56;
    the application is left as it was and the file is never reopened. *)
Theorem failing_stat_ends_watcher
    (idle later : list Observation) (o : Observation) (prev : Z) (e : exn) (w : World) :
  Forall (fun o' => obs_stat o' = Ok prev) idle -> obs_stat o = Raise e ->
  watch_loop (idle ++ o :: later) prev w =
    (Raise e, mkWorld (app w) (trace w ++ repeat EvStat (S (length idle)))) /\
  start_watching_please o later w =
    (Raise e, mkWorld (app w) (trace w ++ [EvStat])).
Proof.
  intros Hidle Ho. split.
  - rewrite watch_loop_app, (watch_loop_idle idle prev w Hidle), watch_loop_cons.
    rewrite (watch_iteration_stat_fails o prev e _ Ho). cbn [app trace].
    rewrite <- app_assoc. do 3 f_equal.
    change [EvStat] with (repeat EvStat 1). rewrite <- repeat_app.
    f_equal. lia.
  - unfold start_watching_please. mrun. rewrite Ho. reflexivity.
Qed.

Lemma failing_stat_ends_watcher_witness :
  watch_loop ([mkObservation (Ok 6) (Ok (mkDocument 2 3))]
                ++ mkObservation (Raise FileNotFoundError) (Raise FileNotFoundError)
                :: [mkObservation (Ok 9) (Ok (mkDocument 2 3))])
             6 (cached_world 1 5 4) =
    (Raise FileNotFoundError,
     mkWorld (app (cached_world 1 5 4))
             (trace (cached_world 1 5 4) ++ repeat EvStat 2)) /\
  start_watching_please
      (mkObservation (Raise FileNotFoundError) (Raise FileNotFoundError))
      [mkObservation (Ok 9) (Ok (mkDocument 2 3))] (cached_world 1 5 4) =
    (Raise FileNotFoundError,
     mkWorld (app (cached_world 1 5 4)) (trace (cached_world 1 5 4) ++ [EvStat])).
Proof.
  apply (failing_stat_ends_watcher
           [mkObservation (Ok 6) (Ok (mkDocument 2 3))]
           [mkObservation (Ok 9) (Ok (mkDocument 2 3))]
           (mkObservation (Raise FileNotFoundError) (Raise FileNotFoundError))
           6 FileNotFoundError (cached_world 1 5 4)).
  - repeat constructor.
  - reflexivity.
Defined.

(** X12.  A successful reload to a document with at least one page, from
    a cursor that is not negative, leaves the cursor at the smaller of its
    old value and the new last page, hence inside the new document. *)
Theorem reload_clamps_cursor
    (o : Observation) (prev m : Z) (d : Document) (w : World) :
  obs_stat o = Ok m -> m <> prev -> obs_open o = Ok d ->
  1 <= page_count d -> 0 <= cursor w ->
  exists w', watch_iteration o prev w = (Ok m, w') /\
             cursor w' = Z.min (cursor w) (page_count d - 1) /\
             cursor_in_range w'.
Proof.
  intros Hs Hne Ho Hpages Hc.
  destruct (watch_iteration_reloads o prev m d w Hs Hne Ho Hpages) as (c & _ & E).
  assert (Hmin : reloaded_cursor (cursor w) (page_count d)
                 = Z.min (cursor w) (page_count d - 1)).
  { unfold reloaded_cursor. destruct (Z.leb_spec (page_count d) (cursor w)); lia. }
  eexists. split; [exact E|]. unfold cursor_in_range. psimpl. rewrite Hmin. lia.
Qed.

Lemma reload_clamps_cursor_witness :
  exists w', watch_iteration (mkObservation (Ok 7) (Ok (mkDocument 2 3))) 6
                             (cached_world 1 9 6) = (Ok 7, w') /\
             cursor w' = Z.min (cursor (cached_world 1 9 6)) (3 - 1) /\
             cursor_in_range w'.
Proof.
  apply (reload_clamps_cursor
           (mkObservation (Ok 7) (Ok (mkDocument 2 3))) 6 7 (mkDocument 2 3)
           (cached_world 1 9 6)); concrete.
Defined.



Lemma reloaded_cursor_idempotent (c t : Z) :
  reloaded_cursor (reloaded_cursor c t) t = reloaded_cursor c t.
Proof.
  unfold reloaded_cursor.
  destruct (Z.leb_spec t c).
  - destruct (Z.leb_spec t (t - 1)); lia.
  - destruct (Z.leb_spec t (c - 1 + 1)); lia.
Qed.

(** X14.  Reloading again does not move the view: when the modification
    time changes again and the reopen gives the same document (with at
    least one page), the second reload returns normally and leaves the
    document, the cursor, the four widgets and the focus exactly as the
    first one left them; only the render cache may differ, and it still
    holds entries of that document only. *)
Theorem second_reload_changes_nothing
    (o1 o2 : Observation) (prev m1 m2 : Z) (d : Document) (w : World) :
  obs_stat o1 = Ok m1 -> m1 <> prev -> obs_open o1 = Ok d ->
  obs_stat o2 = Ok m2 -> m2 <> m1 -> obs_open o2 = Ok d ->
  1 <= page_count d ->
  exists w1 w2, watch_iteration o1 prev w = (Ok m1, w1) /\
                watch_iteration o2 m1 w1 = (Ok m2, w2) /\
                forget_cache (app w2) = forget_cache (app w1) /\
                (forall i a, cache w2 !! i = Some a -> art_doc a = doc_id d).
Proof.
  intros Hs1 Hne1 Ho1 Hs2 Hne2 Ho2 Hpages.
  destruct (watch_iteration_reloads o1 prev m1 d w Hs1 Hne1 Ho1 Hpages) as (c1 & _ & E1).
  match type of E1 with
  | _ = (_, ?w1) =>
      destruct (watch_iteration_reloads o2 m1 m2 d w1 Hs2 Hne2 Ho2 Hpages)
        as (c2 & Hc2 & E2)
  end.
  do 2 eexists. split; [exact E1|]. split; [exact E2|]. psimpl. split.
  - unfold forget_cache. psimpl.
    rewrite !reloaded_cursor_idempotent, !focus_after_disabling_same. reflexivity.
  - intros i a Hia. exact (proj1 (Hc2 i a Hia)).
Qed.

Lemma second_reload_changes_nothing_witness :
  exists w1 w2,
    watch_iteration (mkObservation (Ok 7) (Ok (mkDocument 2 3))) 6
                    (cached_world 1 5 4) = (Ok 7, w1) /\
    watch_iteration (mkObservation (Ok 8) (Ok (mkDocument 2 3))) 7 w1 = (Ok 8, w2) /\
    forget_cache (app w2) = forget_cache (app w1) /\
    (forall i a, cache w2 !! i = Some a -> art_doc a = 2%N).
Proof.
  apply (second_reload_changes_nothing
           (mkObservation (Ok 7) (Ok (mkDocument 2 3)))
           (mkObservation (Ok 8) (Ok (mkDocument 2 3))) 6 7 8 (mkDocument 2 3)
           (cached_world 1 5 4)); concrete.
Defined.

Lemma count_opens_app (a b : list event) :
  count_opens (a ++ b) = (count_opens a + count_opens b)%nat.
Proof. unfold count_opens. now rewrite filter_app, length_app. Qed.

Lemma count_opens_reload_writes (c t : Z) : count_opens (reload_writes c t) = O.
Proof. unfold reload_writes. destruct (t <=? c); reflexivity. Qed.

Lemma last_cons_default {A} (l : list A) (a d : A) : List.last (a :: l) d = List.last l a.
Proof.
  revert a d. induction l as [|b l IH]; intros a d; [reflexivity|].
  change (List.last (a :: b :: l) d) with (List.last (b :: l) d). rewrite !IH. reflexivity.
Qed.

Lemma watch_loop_opens (os : list Observation) :
  forall prev w, Forall survivable os ->
  exists w' evs,
    watch_loop os prev w = (Ok (List.last (map obs_mtime os) prev), w') /\
    trace w' = (trace w ++ evs)%list /\
    count_opens evs = mtime_changes prev (map obs_mtime os).
Proof.
  induction os as [|o os IH]; intros prev w Hall.
  - exists w, []. cbn. rewrite app_nil_r. auto.
  - inversion Hall as [|? ? [[m Hs] (d & Ho & Hpages)] Hos]; subst.
    rewrite watch_loop_cons. cbn [map]. rewrite last_cons_default.
    cbn [mtime_changes].
    assert (Hm : obs_mtime o = m) by (unfold obs_mtime; now rewrite Hs).
    rewrite Hm.
    destruct (Z.eqb_spec m prev) as [-> | Hne].
    + rewrite (watch_iteration_unchanged o prev w Hs).
      destruct (IH prev (mkWorld (app w) (trace w ++ [EvStat])) Hos)
        as (w' & evs & E & Htr & Hcount).
      exists w', (EvStat :: evs). split; [exact E|]. split.
      * rewrite Htr. cbn [trace]. rewrite <- app_assoc. reflexivity.
      * exact Hcount.
    + destruct (watch_iteration_reloads o prev m d w Hs Hne Ho Hpages) as (c & _ & E1).
      rewrite E1.
      match goal with
      | |- context [watch_loop os m ?w1] =>
          destruct (IH m w1 Hos) as (w' & evs & E & Htr & Hcount)
      end.
      eexists w', (_ ++ evs)%list. split; [exact E|]. split.
      * rewrite Htr. cbn [trace]. rewrite <- app_assoc. reflexivity.
      * rewrite !count_opens_app, count_opens_reload_writes, Hcount.
        reflexivity.
Qed.

(** X15.  Over any run of iterations in which [stat] succeeds and every
    reopen gives a document with at least one page, the watcher keeps
    running, calls [fitz.open] exactly once for each iteration whose
    modification time differs from the one before, and ends up
    remembering the last modification time it saw. *)
Theorem watcher_opens_once_per_change
    (os : list Observation) (prev : Z) (w : World) :
  Forall survivable os ->
  exists w', watch_loop os prev w = (Ok (List.last (map obs_mtime os) prev), w') /\
             count_opens (events_since w w')
               = mtime_changes prev (map obs_mtime os).
Proof.
  intros Hall.
  destruct (watch_loop_opens os prev w Hall) as (w' & evs & E & Htr & Hcount).
  exists w'. split; [exact E|]. now rewrite (events_since_app w w' evs Htr).
Qed.

Lemma watcher_opens_once_per_change_witness :
  exists w',
    watch_loop [mkObservation (Ok 7) (Ok (mkDocument 2 4));
                mkObservation (Ok 7) (Ok (mkDocument 3 3));
                mkObservation (Ok 8) (Ok (mkDocument 3 3))] 6 (cached_world 1 5 4)
      = (Ok (List.last (map obs_mtime
                       [mkObservation (Ok 7) (Ok (mkDocument 2 4));
                        mkObservation (Ok 7) (Ok (mkDocument 3 3));
                        mkObservation (Ok 8) (Ok (mkDocument 3 3))]) 6), w') /\
    count_opens (events_since (cached_world 1 5 4) w')
      = mtime_changes 6
          (map obs_mtime [mkObservation (Ok 7) (Ok (mkDocument 2 4));
                          mkObservation (Ok 7) (Ok (mkDocument 3 3));
                          mkObservation (Ok 8) (Ok (mkDocument 3 3))]).
Proof.
  apply (watcher_opens_once_per_change
           [mkObservation (Ok 7) (Ok (mkDocument 2 4));
            mkObservation (Ok 7) (Ok (mkDocument 3 3));
            mkObservation (Ok 8) (Ok (mkDocument 3 3))] 6 (cached_world 1 5 4)).
  repeat constructor; cbn; try (eexists; split; [reflexivity | cbn; lia]);
    eexists; reflexivity.
Defined.

(** ** The running application *)

Lemma handle_all_cons (msg : message) (msgs : list message) (prev : Z) (w : World) :
  handle_all (msg :: msgs) prev w =
    match handle msg prev w with
    | (Ok m, w') => handle_all msgs m w'
    | (Raise e, w') => (Raise e, w')
    end.
Proof. reflexivity. Qed.

(** A property of the state that every message keeps holds after any
    sequence of messages, whether the run ends normally or not. *)
Lemma handle_all_preserves (P : World -> Prop) (Q : message -> Prop) :
  (forall msg prev w, P w -> Q msg -> P (snd (handle msg prev w))) ->
  forall msgs prev w, P w -> Forall Q msgs -> P (snd (handle_all msgs prev w)).
Proof.
  intros Hstep. induction msgs as [|msg msgs IH]; intros prev w HP HQ; [exact HP|].
  inversion HQ as [|? ? Hq Hqs]; subst.
  rewrite handle_all_cons. specialize (Hstep msg prev w HP Hq).
  destruct (handle msg prev w) as [[m | e] w1]; cbn [snd] in *; auto.
Qed.

Lemma bind_ret_snd {A} (m : M unit) (a : A) (w : World) :
  snd ((run m; ret a) w) = snd (m w).
Proof. unfold bind, ret. destruct (m w) as [[[] | e] w']; reflexivity. Qed.

Lemma viewer_step_refl (w : World) : viewer_step w w (cursor w).
Proof. unfold viewer_step. auto. Qed.

Lemma set_current_page_step (z : Z) (w : World) :
  viewer_step w (snd (set_current_page z w)) z.
Proof.
  destruct (set_current_page_spec z w) as (r & c & -> & Hc & _).
  unfold viewer_step. psimpl. auto.
Qed.

(** A cursor write followed by [fix_buttons]. *)
Lemma write_then_fix_step (m : M unit) (z : Z) (w : World) :
  viewer_step w (snd (m w)) z ->
  viewer_step w (snd ((run m; fix_buttons) w)) z.
Proof.
  intros (Hd & Hz & Hc & Hf).
  destruct (then_fix_buttons m w) as (r & w1 & w2 & E1 & E2 & Hv & Hf2 & _).
  rewrite E1 in *. rewrite E2. cbn [snd] in *.
  unfold viewer_step, document, cursor, cache in *. rewrite Hv.
  split; [exact Hd | split; [exact Hz | split; [exact Hc | auto]]].
Qed.

Lemma go_to_end_step (w : World) :
  exists z, viewer_step w (snd (go_to_end w)) z /\
            (z = cursor w \/ (z = total w - 1 /\ total w <> 0)).
Proof.
  unfold go_to_end. mrun. fold (total w).
  destruct (Z.eqb_spec (total w) 0) as [H0 | Hn0].
  - exists (cursor w). split; [apply viewer_step_refl | now left].
  - exists (total w - 1). split; [apply set_current_page_step | now right].
Qed.

(** What a key press can do to the viewer. *)
Lemma on_key_step (key : string) (w : World) :
  exists z, viewer_step w (snd (on_key key w)) z /\
            (z = cursor w \/ z = Z.min (cursor w + 1) (total w - 1) \/
             z = Z.max (cursor w - 1) 0 \/ z = 0 \/
             (z = total w - 1 /\ total w <> 0)).
Proof.
  unfold on_key, bind at 1, get_app.
  destruct (focused (app w)) as [fid|] eqn:Hf.
  2:{ exists (cursor w). split; [apply viewer_step_refl | auto]. }
  destruct (String.eqb fid "current" && negb (key_in key ["up"; "down"])).
  { exists (cursor w). split; [| auto].
    destruct (String.eqb key "escape"); [| apply viewer_step_refl].
    unfold viewer_step. mrun. psimpl. eauto 6. }
  destruct (key_in key next_keys).
  { eexists. split; [apply write_then_fix_step; apply set_current_page_step | auto]. }
  destruct (key_in key prev_keys).
  { eexists. split; [apply write_then_fix_step; apply set_current_page_step | auto]. }
  destruct (key_in key start_keys).
  { eexists. split; [apply write_then_fix_step; apply set_current_page_step | auto]. }
  destruct (key_in key end_keys).
  { destruct (go_to_end_step w) as (z & Hstep & Hz).
    exists z. split; [now apply write_then_fix_step | tauto]. }
  exists (cursor w). split; [| auto].
  destruct (String.eqb key "i"); [| apply viewer_step_refl].
  unfold viewer_step. mrun. psimpl. eauto 6.
Qed.

Lemma on_button_pressed_step (button_id : string) (w : World) :
  exists z, viewer_step w (snd (on_button_pressed button_id w)) z /\
            (z = cursor w \/ z = Z.min (cursor w + 1) (total w - 1) \/
             z = Z.max (cursor w - 1) 0).
Proof.
  unfold on_button_pressed.
  destruct (String.eqb button_id "prev"); [| destruct (String.eqb button_id "next")].
  - eexists. split; [apply write_then_fix_step; apply set_current_page_step | auto].
  - eexists. split; [apply write_then_fix_step; apply set_current_page_step | auto].
  - exists (cursor w). split; [| auto].
    apply write_then_fix_step. apply viewer_step_refl.
Qed.

Lemma on_input_changed_step (value : pytext) (w : World) :
  exists z, viewer_step w (snd (on_input_changed value w)) z /\
            (z = cursor w \/ (1 <= total w /\ -1 <= z <= total w - 2)).
Proof.
  destruct (on_input_changed_cases value w) as [-> | [-> | (v & Hpos & _ & Hlt & ->)]].
  - exists (cursor w). split; [apply viewer_step_refl | auto].
  - exists (cursor w). split; [apply viewer_step_refl | auto].
  - exists (v - 1). split; [apply set_current_page_step | right; lia].
Qed.

Lemma viewer_step_total (w w' : World) (z : Z) :
  viewer_step w w' z -> total w' = total w.
Proof. intros (Hd & _). unfold total, total_pages, document in *. now rewrite Hd. Qed.

Lemma viewer_step_cache (w w' : World) (z : Z) :
  viewer_step w w' z -> cache_from (document w) (cache w) ->
  cache_from (document w') (cache w').
Proof.
  intros (Hd & _ & Hc & _) Hfrom. rewrite Hd.
  eapply cache_from_write; [exact Hfrom|].
  destruct Hc as [-> | [Hz ->]]; [now left | right; split; [exact Hz | reflexivity]].
Qed.

(** What a watcher iteration leaves: the application untouched, or the
    reopened document [d] with a cache of its own pages and the cursor
    the reload writes. *)
Lemma watch_iteration_step (o : Observation) (prev : Z) (w : World) :
  app (snd (watch_iteration o prev w)) = app w \/
  exists d, obs_open o = Ok d /\
            document (snd (watch_iteration o prev w)) = d /\
            cache_from d (cache (snd (watch_iteration o prev w))) /\
            (is_Some (focused (app w)) ->
             is_Some (focused (app (snd (watch_iteration o prev w))))) /\
            (1 <= page_count d ->
             cursor (snd (watch_iteration o prev w))
             = reloaded_cursor (cursor w) (page_count d)).
Proof.
  destruct (obs_stat o) as [m | e] eqn:Hs.
  2:{ left. now rewrite (watch_iteration_stat_fails o prev e w Hs). }
  destruct (Z.eq_dec m prev) as [-> | Hne].
  { left. now rewrite (watch_iteration_unchanged o prev w Hs). }
  destruct (obs_open o) as [d | e] eqn:Ho.
  2:{ left. now rewrite (watch_iteration_reopen_fails o prev m e w Hs Hne Ho). }
  right. exists d. split; [reflexivity|].
  destruct (Z_le_gt_dec 1 (page_count d)) as [Hpages | Hnone].
  - destruct (watch_iteration_reloads o prev m d w Hs Hne Ho Hpages) as (c & Hc & ->).
    psimpl. split; [reflexivity|]. split; [exact Hc|]. split; [|reflexivity].
    intros Hf. now do 2 apply focus_after_disabling_some.
  - rewrite (watch_iteration_reload_empty o prev m d w Hs Hne Ho ltac:(lia)).
    psimpl. split; [reflexivity|]. split; [|split; [auto | lia]].
    intros i a. rewrite lookup_empty. discriminate.
Qed.

(** X16.  Across any sequence of key presses, button presses, typed
    values, input submissions and watcher iterations, in any order, as
    long as every reopened document has at least one page: if the
    document has a page and the cursor is in [-1, total - 1] at the start,
    it is so at the end, also when the run ends with an exception.  So
    the cursor never passes the last page and never goes below [-1]. *)
Theorem cursor_stays_from_minus_one_to_last
    (msgs : list message) (prev : Z) (w : World) :
  cursor_from_minus_one w -> Forall opens_with_pages msgs ->
  cursor_from_minus_one (snd (handle_all msgs prev w)).
Proof.
  apply handle_all_preserves. clear. intros msg prev w HP HQ.
  unfold cursor_from_minus_one in *.
  destruct msg as [key | button_id | value | | o]; cbn [handle];
    rewrite ?bind_ret_snd.
  - destruct (on_key_step key w) as (z & Hstep & Hz).
    rewrite (viewer_step_total _ _ _ Hstep).
    destruct Hstep as (_ & -> & _). lia.
  - destruct (on_button_pressed_step button_id w) as (z & Hstep & Hz).
    rewrite (viewer_step_total _ _ _ Hstep).
    destruct Hstep as (_ & -> & _). lia.
  - destruct (on_input_changed_step value w) as (z & Hstep & Hz).
    rewrite (viewer_step_total _ _ _ Hstep).
    destruct Hstep as (_ & -> & _). lia.
  - exact HP.
  - destruct (watch_iteration_step o prev w)
      as [Happ | (d & Ho & Hd & _ & _ & Hc)].
    + unfold total, cursor. rewrite Happ. exact HP.
    + cbn [opens_with_pages] in HQ. rewrite Ho in HQ.
      unfold total, total_pages. unfold document in Hd. rewrite Hd, (Hc HQ).
      unfold reloaded_cursor.
      destruct (Z.leb_spec (page_count d) (cursor w)); lia.
Qed.

Lemma cursor_stays_from_minus_one_to_last_witness :
  cursor_from_minus_one
    (snd (handle_all [InputChanged "0"; KeyEvent "left";
                      WatcherWakes (mkObservation (Ok 7) (Ok (mkDocument 2 3)));
                      ButtonPressed "next"; InputChanged "3"; InputSubmitted]
                     6 (sample_world 1 5 4))).
Proof.
  apply (cursor_stays_from_minus_one_to_last
           [InputChanged "0"; KeyEvent "left";
            WatcherWakes (mkObservation (Ok 7) (Ok (mkDocument 2 3)));
            ButtonPressed "next"; InputChanged "3"; InputSubmitted]
           6 (sample_world 1 5 4)).
  - unfold cursor_from_minus_one, sample_world, sample_viewer. psimpl. lia.
  - repeat constructor; cbn; lia.
Defined.

Lemma handle_keeps_focus (msg : message) (prev : Z) (w : World) :
  is_Some (focused (app w)) -> is_Some (focused (app (snd (handle msg prev w)))).
Proof.
  intros Hf.
  destruct msg as [key | button_id | value | | o]; cbn [handle];
    rewrite ?bind_ret_snd.
  - destruct (on_key_step key w) as (z & (_ & _ & _ & H) & _). auto.
  - destruct (on_button_pressed_step button_id w) as (z & (_ & _ & _ & H) & _). auto.
  - destruct (on_input_changed_step value w) as (z & (_ & _ & _ & H) & _). auto.
  - unfold on_input_submitted. mrun. psimpl. eauto.
  - destruct (watch_iteration_step o prev w) as [-> | (d & _ & _ & _ & H & _)]; auto.
Qed.

Lemma set_current_page_result (z : Z) (w : World) :
  fst (set_current_page z w) <> Raise AttributeError.
Proof.
  unfold set_current_page, render_page.
  cbv [bind ret raise get_app put_app emit]. psimpl.
  destruct (z =? current_page (pdf_viewer (app w))); cbv beta; psimpl; [discriminate|].
  destruct (page_count (doc (pdf_viewer (app w))) <=? 0); cbv beta; psimpl; [discriminate|].
  destruct (_cache (pdf_viewer (app w)) !! z); cbv beta; psimpl; [discriminate|].
  destruct (page_count (doc (pdf_viewer (app w))) <=? z); discriminate.
Qed.

Lemma then_fix_buttons_result (m : M unit) (w : World) :
  fst (m w) <> Raise AttributeError ->
  fst ((run m; fix_buttons) w) <> Raise AttributeError.
Proof.
  intros H. destruct (then_fix_buttons m w) as (r & w1 & w2 & E1 & E2 & _).
  rewrite E1 in H. now rewrite E2.
Qed.

(** X17.  No handler and no watcher iteration ever clears the focus: once
    some widget is focused (as [on_mount] arranges), a widget is focused
    after any sequence of messages (when [fix_buttons] disables the
    focused button the focus moves to the [empty_focusable] label), so
    the read of [self.focused.id] in [on_key] finds a widget: the next key
    press does not raise [AttributeError]. *)
Theorem focus_is_never_cleared
    (msgs : list message) (prev : Z) (w : World) (key : string) :
  is_Some (focused (app w)) ->
  is_Some (focused (app (snd (handle_all msgs prev w)))) /\
  fst (on_key key (snd (handle_all msgs prev w))) <> Raise AttributeError.
Proof.
  intros Hf.
  assert (Hf' : is_Some (focused (app (snd (handle_all msgs prev w))))).
  { apply (handle_all_preserves (fun w => is_Some (focused (app w))) (fun _ => True)).
    - intros msg p w0 H _. now apply handle_keeps_focus.
    - exact Hf.
    - apply Forall_forall. auto. }
  split; [exact Hf' |].
  destruct Hf' as [fid Hfid]. set (w1 := snd (handle_all msgs prev w)) in *.
  unfold on_key, bind at 1, get_app. rewrite Hfid.
  destruct (String.eqb fid "current" && negb (key_in key ["up"; "down"])).
  { destruct (String.eqb key "escape"); discriminate. }
  destruct (key_in key next_keys);
    [apply then_fix_buttons_result, set_current_page_result |].
  destruct (key_in key prev_keys);
    [apply then_fix_buttons_result, set_current_page_result |].
  destruct (key_in key start_keys);
    [apply then_fix_buttons_result, set_current_page_result |].
  destruct (key_in key end_keys).
  { apply then_fix_buttons_result. unfold go_to_end. mrun.
    destruct (total_pages (pdf_viewer (app w1)) =? 0);
      [discriminate | apply set_current_page_result]. }
  destruct (String.eqb key "i"); discriminate.
Qed.

Lemma focus_is_never_cleared_witness :
  is_Some (focused (app (snd (handle_all
     [ButtonPressed "next"; KeyEvent "i"; InputChanged "3"; KeyEvent "escape";
      WatcherWakes (mkObservation (Ok 7) (Ok (mkDocument 2 0)))]
     6 (mkWorld (with_focused (Some "next") (app (sample_world 1 5 3))) []))))) /\
  fst (on_key "l" (snd (handle_all
     [ButtonPressed "next"; KeyEvent "i"; InputChanged "3"; KeyEvent "escape";
      WatcherWakes (mkObservation (Ok 7) (Ok (mkDocument 2 0)))]
     6 (mkWorld (with_focused (Some "next") (app (sample_world 1 5 3))) []))))
    <> Raise AttributeError.
Proof.
  apply (focus_is_never_cleared
           [ButtonPressed "next"; KeyEvent "i"; InputChanged "3"; KeyEvent "escape";
            WatcherWakes (mkObservation (Ok 7) (Ok (mkDocument 2 0)))]
           6 (mkWorld (with_focused (Some "next") (app (sample_world 1 5 3))) []) "l").
  exists "next". reflexivity.
Defined.

(** X18.  The render cache never shows a page of a replaced document:
    if every cache entry was rendered from the current document and sits
    under an index below its page count, this is still so after any
    sequence of key presses, button presses, typed values, input
    submissions and watcher iterations, also when the run ends with an
    exception. *)
Theorem cache_never_stale (msgs : list message) (prev : Z) (w : World) :
  cache_from (document w) (cache w) ->
  cache_from (document (snd (handle_all msgs prev w)))
             (cache (snd (handle_all msgs prev w))).
Proof.
  intros Hc.
  apply (handle_all_preserves
           (fun w => cache_from (document w) (cache w)) (fun _ => True));
    [| exact Hc | apply Forall_forall; auto].
  clear. intros msg prev w HP _.
  destruct msg as [key | button_id | value | | o]; cbn [handle];
    rewrite ?bind_ret_snd.
  - destruct (on_key_step key w) as (z & Hstep & _).
    exact (viewer_step_cache _ _ _ Hstep HP).
  - destruct (on_button_pressed_step button_id w) as (z & Hstep & _).
    exact (viewer_step_cache _ _ _ Hstep HP).
  - destruct (on_input_changed_step value w) as (z & Hstep & _).
    exact (viewer_step_cache _ _ _ Hstep HP).
  - exact HP.
  - destruct (watch_iteration_step o prev w) as [Happ | (d & _ & Hd & Hfrom & _)].
    + unfold document, cache. rewrite Happ. exact HP.
    + rewrite Hd. exact Hfrom.
Qed.

Lemma cache_never_stale_witness :
  cache_from
    (document (snd (handle_all
       [KeyEvent "left"; WatcherWakes (mkObservation (Ok 7) (Ok (mkDocument 2 3)));
        ButtonPressed "prev"; InputChanged "1"] 6 (cached_world 1 5 4))))
    (cache (snd (handle_all
       [KeyEvent "left"; WatcherWakes (mkObservation (Ok 7) (Ok (mkDocument 2 3)));
        ButtonPressed "prev"; InputChanged "1"] 6 (cached_world 1 5 4)))).
Proof.
  apply (cache_never_stale
           [KeyEvent "left"; WatcherWakes (mkObservation (Ok 7) (Ok (mkDocument 2 3)));
            ButtonPressed "prev"; InputChanged "1"] 6 (cached_world 1 5 4)).
  unfold cache_from, cached_world. psimpl. intros i a.
  rewrite !lookup_insert. repeat case_decide; try rewrite lookup_empty;
    intros [= <-]; subst; cbn; split; (reflexivity || lia).
Defined.
